(** * cli_main.cc: the command-line chat front end

    A shallow embedding of [cpp/cli_main.cc]: device selection
    ([DetectDeviceName], [GetDevice]), the artifact search ([FindFile] and
    the closure [f_search_model_path] built in [main]), the UTF-8 splitter
    [CountUTF8], and the read-eval-print loop [Chat] with its redraw step.

    Conventions.
    - [std::string] and [std::filesystem::path] are [string]; a [char] is an
      [ascii] whose integer value depends on the signedness of [char].
    - [size_t] arithmetic that can wrap is written out on [Z] modulo [2^64].
    - The file system, the device registry and the chat module are external:
      they are section variables, instantiated with concrete ones in the
      examples.
    - A call that does not return normally ([exit(1)], a C++ exception,
      [LOG(FATAL)]) is an [Outcome] other than [Ret]. *)

From Stdlib Require Import String Ascii List ZArith Lia Bool Arith.
Import ListNotations.
Open Scope string_scope.

(** ** Characters and strings *)

Definition chr (n : nat) : string := String (ascii_of_nat n) EmptyString.

(** The double quote, the line feed and the backspace. *)
Definition dq : string := chr 34.
Definition endl : string := chr 10.
Definition backspace : string := chr 8.

(** [s[pos]] of a [std::string]: the character at [pos], and [char()] at
    [pos == size()]. *)
Definition at_ (s : string) (pos : nat) : ascii :=
  match String.get pos s with
  | Some c => c
  | None => zero
  end.

(** Integral promotion of a [char] to [int]. *)
Definition char_to_int (char_is_signed : bool) (c : ascii) : Z :=
  let n := Z.of_nat (nat_of_ascii c) in
  if char_is_signed && (128 <=? n)%Z then (n - 256)%Z else n.

(** [s.substr(pos, n)] for [pos <= s.size()]. *)
Definition substr (s : string) (pos n : nat) : string := substring pos n s.

(** The strings of a list, one after the other. *)
Definition join (l : list string) : string := fold_right String.append EmptyString l.

Definition size_t_max : Z := 2 ^ 64.
Definition to_size_t (z : Z) : Z := z mod size_t_max.

(** ** How a call ends *)

Inductive Exn : Type :=
| FatalLog (msg : string)        (* LOG(FATAL) << msg *)
| OutOfRange                    (* std::out_of_range *)
| RuntimeError (what : string). (* an error of the runtime or the engine *)

Inductive Outcome (A : Type) : Type :=
| Ret (a : A)            (* normal return *)
| ExitProcess (code : Z) (* exit(code) *)
| Raise (e : Exn)        (* a C++ exception leaves the function *)
| NoFuel.                (* the bound on loop iterations was reached *)
Arguments Ret {A} a.
Arguments ExitProcess {A} code.
Arguments Raise {A} e.
Arguments NoFuel {A}.

Definition obind {A B} (o : Outcome A) (k : A -> Outcome B) : Outcome B :=
  match o with
  | Ret a => k a
  | ExitProcess c => ExitProcess c
  | Raise e => Raise e
  | NoFuel => NoFuel
  end.

(** ** Devices *)

Inductive DLDeviceType : Type := kDLCPU | kDLCUDA | kDLMetal | kDLVulkan | kDLOpenCL.

Record DLDevice : Type := mkDLDevice { device_type : DLDeviceType; device_id : Z }.

Section Devices.
(** [DeviceAPI::Get(dev, allow_missing)] is non-null. *)
Variable DeviceAPI_Get : DLDevice -> bool.

Definition DetectDeviceName (device_name : string) : Outcome string :=
  if device_name =? "auto" then
    if DeviceAPI_Get (mkDLDevice kDLCUDA 0) then Ret "cuda"
    else if DeviceAPI_Get (mkDLDevice kDLMetal 0) then Ret "metal"
    else if DeviceAPI_Get (mkDLDevice kDLVulkan 0) then Ret "vulkan"
    else if DeviceAPI_Get (mkDLDevice kDLOpenCL 0) then Ret "opencl"
    else Raise (FatalLog "Cannot auto detect device-name")
  else Ret device_name.

Definition GetDevice (device_name : string) (device_id : Z) : Outcome DLDevice :=
  if device_name =? "cuda" then Ret (mkDLDevice kDLCUDA device_id)
  else if device_name =? "metal" then Ret (mkDLDevice kDLMetal device_id)
  else if device_name =? "vulkan" then Ret (mkDLDevice kDLVulkan device_id)
  else if device_name =? "opencl" then Ret (mkDLDevice kDLOpenCL device_id)
  else Raise (FatalLog ("Do not recognize device name " ++ device_name)).

(** [main], lines 269-271: the device the program runs on. *)
Definition main_device (device_name_arg : string) (device_id : Z) : Outcome DLDevice :=
  obind (DetectDeviceName device_name_arg) (fun device_name =>
  GetDevice device_name device_id).
End Devices.

(** ** The file system *)

Record FileSystem : Type := mkFS {
  fs_exists : string -> bool;           (* std::filesystem::exists *)
  fs_canonical : string -> string;      (* std::filesystem::canonical *)
  fs_is_regular_file : string -> bool   (* std::filesystem::is_regular_file *)
}.

(** *** [FindFile]

    The three nested loops, innermost first.  Each returns the paths handed
    to [exists] so far, in order, and the path found, if any. *)
Section FindFile.
Variable fs : FileSystem.

Definition probe (path : string) : option string :=
  if fs_exists fs path then
    let path := fs_canonical fs path in
    if fs_is_regular_file fs path then Some path else None
  else None.

Fixpoint FindFile_suffixes (prefix name : string) (suffixes : list string)
  : list string * option string :=
  match suffixes with
  | [] => ([], None)
  | suffix :: rest =>
      let path := prefix ++ "/" ++ name ++ suffix in
      match probe path with
      | Some found => ([path], Some found)
      | None =>
          let (tr, r) := FindFile_suffixes prefix name rest in (path :: tr, r)
      end
  end.

Fixpoint FindFile_names (prefix : string) (names suffixes : list string)
  : list string * option string :=
  match names with
  | [] => ([], None)
  | name :: rest =>
      match FindFile_suffixes prefix name suffixes with
      | (tr, Some found) => (tr, Some found)
      | (tr, None) =>
          let (tr', r) := FindFile_names prefix rest suffixes in ((tr ++ tr')%list, r)
      end
  end.

Fixpoint FindFile_trace (search_paths names suffixes : list string)
  : list string * option string :=
  match search_paths with
  | [] => ([], None)
  | prefix :: rest =>
      match FindFile_names prefix names suffixes with
      | (tr, Some found) => (tr, Some found)
      | (tr, None) =>
          let (tr', r) := FindFile_trace rest names suffixes in ((tr ++ tr')%list, r)
      end
  end.

Definition FindFile (search_paths names suffixes : list string) : option string :=
  snd (FindFile_trace search_paths names suffixes).
End FindFile.

(** *** Paths

    [std::filesystem::path] in the generic POSIX format, as a string. *)

Definition is_slash (c : ascii) : bool := Ascii.eqb c "/"%char.

(** The part of [s] before its last separator, when it has one. *)
Fixpoint before_last_slash (s : string) : option string :=
  match s with
  | EmptyString => None
  | String c r =>
      match before_last_slash r with
      | Some p => Some (String c p)
      | None => if is_slash c then Some EmptyString else None
      end
  end.

Fixpoint strip_trailing_slashes (s : string) : string :=
  match s with
  | EmptyString => EmptyString
  | String c r =>
      let r' := strip_trailing_slashes r in
      if is_slash c && (r' =? "") then EmptyString else String c r'
  end.

(** [path::parent_path()]: the path without its last component; the root
    directory is its own parent and a lone file name has an empty one. *)
Definition parent_path (p : string) : string :=
  match before_last_slash p with
  | None => ""
  | Some d => let d' := strip_trailing_slashes d in if d' =? "" then "/" else d'
  end.

(** [path::filename()]: the last component. *)
Fixpoint filename (p : string) : string :=
  match p with
  | EmptyString => EmptyString
  | String c r =>
      match before_last_slash r with
      | Some _ => filename r
      | None => if is_slash c then r else p
      end
  end.

(** [operator<<] on a path writes it between double quotes. *)
Definition quoted (p : string) : string := dq ++ p ++ dq.

(** ** Platform tables *)

Inductive OS : Type := Windows | Apple | OtherOS.
Inductive Arch : Type := X86_64 | AArch64 | OtherArch.

Definition GetLibSuffixes (os : OS) : list string :=
  match os with
  | Windows => [".dll"]
  | Apple => [".dylib"; ".so"]
  | OtherOS => [".so"]
  end.

Definition GetArchSuffix (arch : Arch) : string :=
  match arch with
  | X86_64 => "_x86_64"
  | AArch64 => "_arm64"
  | OtherArch => ""
  end.

(** ** What a call wrote, and how it ended *)

Record Run (A : Type) : Type := mkRun {
  run_out : string;      (* written to std::cout *)
  run_err : string;      (* written to std::cerr *)
  run_res : Outcome A
}.
Arguments mkRun {A} run_out run_err run_res.
Arguments run_out {A} r.
Arguments run_err {A} r.
Arguments run_res {A} r.

(** ** The closure [f_search_model_path] of [main] *)
Section SearchModelPath.
Variable fs : FileSystem.
Variable os : OS.
(* the captured variables *)
Variables artifact_path device_name arch_suffix : string.

(** The loop over the candidates: the configuration file found and the
    candidate it was found for. *)
Fixpoint search_config (local_id_candidates : list string) : option (string * string) :=
  match local_id_candidates with
  | [] => None
  | local_id_candidate :: rest =>
      let config_search_paths :=
        [artifact_path ++ "/" ++ local_id_candidate ++ "/params";
         artifact_path ++ "/prebuilt/" ++ local_id_candidate] in
      match FindFile fs config_search_paths ["mlc-chat-config"] [".json"] with
      | Some config_path => Some (config_path, local_id_candidate)
      | None => search_config rest
      end
  end.

(** [model_path.string().compare(model_path.string().length() - 7, 7, "/params") == 0]:
    the position is a [size_t], and [compare] throws when it is past the end. *)
Definition compare_params (model_path : string) : Outcome bool :=
  let len := Z.of_nat (String.length model_path) in
  let pos := to_size_t (len - 7) in
  if (pos >? len)%Z then Raise OutOfRange
  else Ret (substring (Z.to_nat pos) 7 model_path =? "/params").

Definition lib_name (local_id : string) : string := local_id ++ "-" ++ device_name.

Definition lib_dir_path (model_path : string) : Outcome string :=
  obind (compare_params model_path) (fun is_params =>
  if is_params then Ret (parent_path model_path)
  else Ret (parent_path model_path ++ "/lib")).

(** The names handed to [FindFile] for the library. *)
Definition lib_candidates (local_id : string) : list string :=
  [lib_name local_id; lib_name local_id ++ arch_suffix].

Definition f_search_model_path (local_id_candidates : list string)
  : Run (string * string) :=
  match search_config local_id_candidates with
  | None =>
      mkRun "" ("Cannot find " ++ dq ++ "mlc-chat-config.json" ++ dq ++ " in path " ++ dq
                ++ artifact_path ++ "/" ++ hd "" local_id_candidates ++ "/params/" ++ dq
                ++ ", " ++ dq ++ artifact_path ++ "/prebuilt/" ++ hd "" local_id_candidates
                ++ dq ++ " or other candidate paths.")
            (ExitProcess 1)
  | Some (config_path, local_id) =>
      let out1 := "Use config " ++ config_path ++ endl in
      let model_path := parent_path config_path in
      (* Locate the library. *)
      match lib_dir_path model_path with
      | Ret lib_dir =>
          match FindFile fs [lib_dir] (lib_candidates local_id) (GetLibSuffixes os) with
          | None =>
              mkRun out1 ("Cannot find library " ++ dq ++ lib_name local_id
                          ++ last (GetLibSuffixes os) "" ++ dq
                          ++ " and other library candidate in " ++ lib_dir ++ endl)
                    (ExitProcess 1)
          | Some lib_path =>
              let out2 := out1 ++ "Use lib " ++ lib_path ++ endl in
              (* Locate the params. *)
              match FindFile fs [model_path] ["ndarray-cache"] [".json"] with
              | None =>
                  mkRun out2 ("Cannot find ndarray-cache.json for params in "
                              ++ quoted model_path ++ endl)
                        (ExitProcess 1)
              | Some params_json => mkRun out2 "" (Ret (lib_path, model_path))
              end
          end
      | ExitProcess c => mkRun out1 "" (ExitProcess c)
      | Raise e => mkRun out1 "" (Raise e)
      | NoFuel => mkRun out1 "" NoFuel
      end
  end.
End SearchModelPath.

(** [main], lines 275-289: the candidates of the first search. *)
Definition quantization_presets : list string :=
  ["q3f16_0"; "q4f16_0"; "q4f32_0"; "q0f32"; "q0f16"].

Definition main_local_id_candidates (local_id model quantization : string) : list string :=
  if negb (local_id =? "") then [local_id]
  else
    let quantization_candidates :=
      if quantization =? "auto" then quantization_presets else [quantization] in
    map (fun quantization_candidate => model ++ "-" ++ quantization_candidate)
        quantization_candidates.

(** ** Counted loops

    [for (size_t j = lo; j < hi; ++j) body], without [break]. *)
Fixpoint for_range_fuel {St : Type} (n j hi : nat) (body : nat -> St -> St) (st : St) : St :=
  match n with
  | O => st
  | S n' => if (j <? hi)%nat then for_range_fuel n' (j + 1) hi body (body j st) else st
  end.

Definition for_range {St : Type} (lo hi : nat) (body : nat -> St -> St) (st : St) : St :=
  for_range_fuel (hi - lo) lo hi body st.

(** ** [CountUTF8] *)
Section Utf8.
Variable char_is_signed : bool.

(** [c & mask], the [char] promoted to [int]. *)
Definition band (c : ascii) (mask : Z) : Z :=
  Z.land (char_to_int char_is_signed c) mask.

(** The loop of [CountUTF8] from position [pos], with [ret] the clusters
    pushed so far.  Every round advances [pos], so [fuel] rounds are enough
    when [fuel] is the size of [s]. *)
Fixpoint CountUTF8_loop (fuel : nat) (s : string) (pos : nat) (ret : list string)
  : Outcome (list string) :=
  if (pos <? String.length s)%nat then
    match fuel with
    | O => NoFuel
    | S fuel' =>
        if (band (at_ s pos) 0x80 =? 0x00)%Z then
          CountUTF8_loop fuel' s (pos + 1) (ret ++ [substr s pos 1])%list
        else if (pos + 1 <? String.length s)%nat
                && (band (at_ s pos) 0xE0 =? 0xC0)%Z
                && (band (at_ s (pos + 1)) 0xC0 =? 0x80)%Z then
          CountUTF8_loop fuel' s (pos + 2) (ret ++ [substr s pos 2])%list
        else if (pos + 1 <? String.length s)%nat
                && (band (at_ s pos) 0xF0 =? 0xE0)%Z
                && (band (at_ s (pos + 1)) 0xC0 =? 0x80)%Z
                && (band (at_ s (pos + 2)) 0xC0 =? 0x80)%Z then
          CountUTF8_loop fuel' s (pos + 3) (ret ++ [substr s pos 3])%list
        else if (pos + 2 <? String.length s)%nat
                && (band (at_ s pos) 0xF8 =? 0xF0)%Z
                && (band (at_ s (pos + 1)) 0xC0 =? 0x80)%Z
                && (band (at_ s (pos + 2)) 0xC0 =? 0x80)%Z
                && (band (at_ s (pos + 3)) 0xC0 =? 0x80)%Z then
          CountUTF8_loop fuel' s (pos + 4) (ret ++ [substr s pos 4])%list
        else Raise (FatalLog "Invalid UTF8 string")
    end
  else Ret ret.

Definition CountUTF8 (s : string) : Outcome (list string) :=
  CountUTF8_loop (String.length s) s 0 [].
End Utf8.

(** ** The redraw step of [Chat] (lines 219-238) *)

(** The erase sequence: backspace, space, backspace. *)
Definition erase_seq : string := backspace ++ " " ++ backspace.

(** The first loop: [i] advances while both vectors agree at [i]; [n] bounds
    the rounds. *)
Fixpoint common_run_fuel (n i : nat) (printed cur : list string) : nat :=
  match n with
  | O => i
  | S n' =>
      if (i <? Nat.min (List.length printed) (List.length cur))%nat then
        if negb (nth i printed "" =? nth i cur "") then i
        else common_run_fuel n' (i + 1) printed cur
      else i
  end.

Definition common_run (printed cur : list string) : nat :=
  common_run_fuel (Nat.min (List.length printed) (List.length cur)) 0 printed cur.

(** The string [print] handed to [std::cout]. *)
Definition redraw_print (printed_UTF8_chars cur_UTF8_chars : list string) : string :=
  let print := "" in
  let i := common_run printed_UTF8_chars cur_UTF8_chars in
  let print :=
    for_range i (List.length printed_UTF8_chars) (fun j print => print ++ erase_seq) print in
  let print :=
    for_range i (List.length cur_UTF8_chars)
      (fun j print => print ++ nth j cur_UTF8_chars "") print in
  print.

(** ** Reading tokens: [is >> token] on a [std::istringstream] *)

Definition is_space (c : ascii) : bool :=
  let n := nat_of_ascii c in
  (n =? 32)%nat || ((9 <=? n)%nat && (n <=? 13)%nat).

Fixpoint skip_ws (s : string) : string :=
  match s with
  | EmptyString => EmptyString
  | String c r => if is_space c then skip_ws r else s
  end.

(** The characters up to the next white space, and what is left. *)
Fixpoint read_token (s : string) : string * string :=
  match s with
  | EmptyString => (EmptyString, EmptyString)
  | String c r =>
      if is_space c then (EmptyString, s)
      else let (t, rest) := read_token r in (String c t, rest)
  end.

(** [is >> token]: the token read (empty when the stream is at its end) and
    the rest of the stream. *)
Definition extract (s : string) : string * string := read_token (skip_ws s).

(** ** The chain of tests of the loop body of [Chat] (lines 173-207)

    [classify] is the chain of [if (inp.substr(0, n) == ...)] with the branch
    taken as a value; for [/reload] it carries [local_id], the second token of
    the line, empty when there is none. *)
Inductive Command : Type :=
| Reset
| Reload (local_id : string)
| Exit
| Stats
| Help
| Prompt (inp : string).

Definition classify (inp : string) : Command :=
  if substr inp 0 6 =? "/reset" then Reset
  else if substr inp 0 7 =? "/reload" then
    let (reload_prompt, is_rest) := extract inp in
    let (local_id, is_rest) := extract is_rest in
    Reload local_id
  else if substr inp 0 5 =? "/exit" then Exit
  else if substr inp 0 6 =? "/stats" then Stats
  else if substr inp 0 5 =? "/help" then Help
  else Prompt inp.

Definition special_commands : string :=
  "You can use the following special commands:" ++ endl
  ++ "  /help               print the special commands" ++ endl
  ++ "  /exit               quit the cli" ++ endl
  ++ "  /stats              print out the latest stats (token/sec)" ++ endl
  ++ "  /reset              restart a fresh chat" ++ endl
  ++ "  /reload [model_id]  reload model " ++ dq ++ "model_id" ++ dq
  ++ " from disk, or reload the current model if model_id is not specified" ++ endl
  ++ endl.

(** ** The runtime: the operations [Chat] calls by name

    The chat module is a state of type [ChatState]; [reload] and
    [Module::LoadFromFile] read files and may fail, the other operations are
    taken as total. *)
Record Runtime : Type := mkRuntime {
  Module_ : Type;
  ChatState : Type;
  LoadFromFile : string -> Outcome Module_;
  rt_reload : Module_ -> string -> ChatState -> Outcome ChatState;
  rt_reset_chat : ChatState -> ChatState;
  rt_stopped : ChatState -> bool;
  rt_encode : string -> ChatState -> ChatState;
  rt_decode : ChatState -> ChatState;
  rt_get_message : ChatState -> string;
  rt_runtime_stats_text : ChatState -> string;
  rt_get_role0 : ChatState -> string;
  rt_get_role1 : ChatState -> string
}.

(** What [Chat] acts on: the chat module and the two output streams. *)
Record World (rt : Runtime) : Type := mkWorld {
  chat_mod : ChatState rt;
  cout : string;
  cerr : string
}.
Arguments mkWorld {rt} chat_mod cout cerr.
Arguments chat_mod {rt} w.
Arguments cout {rt} w.
Arguments cerr {rt} w.

(** The variables of [Chat] that the loop assigns. *)
Record Locals (rt : Runtime) : Type := mkLocals {
  executable : Module_ rt;
  model_path : string;
  role0 : string;
  role1 : string
}.
Arguments mkLocals {rt} executable model_path role0 role1.
Arguments executable {rt} l.
Arguments model_path {rt} l.
Arguments role0 {rt} l.
Arguments role1 {rt} l.

(** How one round of the [while (true)] loop ends. *)
Inductive LoopCtl (rt : Runtime) : Type :=
| Continue (l : Locals rt)
| Break.
Arguments Continue {rt} l.
Arguments Break {rt}.

(** A computation on the world that may not return. *)
Definition M (rt : Runtime) (A : Type) : Type := World rt -> World rt * Outcome A.

Definition mret {rt A} (a : A) : M rt A := fun w => (w, Ret a).

Definition mbind {rt A B} (m : M rt A) (k : A -> M rt B) : M rt B :=
  fun w =>
    match m w with
    | (w', Ret a) => k a w'
    | (w', ExitProcess c) => (w', ExitProcess c)
    | (w', Raise e) => (w', Raise e)
    | (w', NoFuel) => (w', NoFuel)
    end.

Declare Scope chat_scope.
Delimit Scope chat_scope with chat.
Notation "x <- c ;; k" := (mbind c (fun x => k))
  (at level 61, c at next level, right associativity) : chat_scope.
Notation "c ;;; k" := (mbind c (fun _ => k))
  (at level 61, right associativity) : chat_scope.

(** [std::cout << s]. *)
Definition print {rt} (s : string) : M rt unit :=
  fun w => (mkWorld (chat_mod w) (cout w ++ s) (cerr w), Ret tt).

(** A query of the chat module. *)
Definition ask {rt A} (f : ChatState rt -> A) : M rt A :=
  fun w => (w, Ret (f (chat_mod w))).

(** A total operation of the chat module. *)
Definition tell {rt} (f : ChatState rt -> ChatState rt) : M rt unit :=
  fun w => (mkWorld (f (chat_mod w)) (cout w) (cerr w), Ret tt).

(** An operation of the chat module that may fail. *)
Definition try_tell {rt} (f : ChatState rt -> Outcome (ChatState rt)) : M rt unit :=
  fun w =>
    match f (chat_mod w) with
    | Ret m => (mkWorld m (cout w) (cerr w), Ret tt)
    | ExitProcess c => (w, ExitProcess c)
    | Raise e => (w, Raise e)
    | NoFuel => (w, NoFuel)
    end.

(** A call outside the chat module. *)
Definition lift {rt A} (o : Outcome A) : M rt A := fun w => (w, o).

(** A call that writes to the streams. *)
Definition lift_run {rt A} (r : Run A) : M rt A :=
  fun w => (mkWorld (chat_mod w) (cout w ++ run_out r) (cerr w ++ run_err r), run_res r).

(** ** [Chat] *)
Section Chat.
Variable char_is_signed : bool.
Variable rt : Runtime.
Variable f_search_model_path : list string -> Run (string * string).
Variable stream_interval : Z.

Local Open Scope chat_scope.

(** The loop [for (size_t i = 0; !f_stop(); ++i)] of lines 214-240, from
    round [i] on, at most [fuel] rounds.  In [i % stream_interval] the [int]
    is converted to [size_t]; [main] calls [Chat] with the default, 2. *)
Fixpoint generate (fuel : nat) (i : Z) (printed_UTF8_chars : list string) : M rt unit :=
  fun w =>
    if rt_stopped rt (chat_mod w) then (w, Ret tt)
    else
      match fuel with
      | O => (w, NoFuel)
      | S fuel' =>
          (tell (rt_decode rt) ;;;
           stop <- ask (rt_stopped rt) ;;
           if (i mod to_size_t stream_interval =? 0)%Z || stop then
             cur_msg <- ask (rt_get_message rt) ;;
             cur_UTF8_chars <- lift (CountUTF8 char_is_signed cur_msg) ;;
             print (redraw_print printed_UTF8_chars cur_UTF8_chars) ;;;
             generate fuel' (to_size_t (i + 1)) cur_UTF8_chars
           else generate fuel' (to_size_t (i + 1)) printed_UTF8_chars) w
      end.

(** The [/reload] branch, lines 179-196. *)
Definition Chat_reload (l : Locals rt) (local_id : string) : M rt (Locals rt) :=
  if local_id =? "" then
    try_tell (rt_reload rt (executable l) (model_path l)) ;;;
    print ("RELOAD THE SAME MODEL SUCCESS" ++ endl) ;;;
    mret l
  else
    found <- lift_run (f_search_model_path [local_id]) ;;
    let (lib_path, model_path) := found in
    executable <- lift (LoadFromFile rt lib_path) ;;
    try_tell (rt_reload rt executable model_path) ;;;
    role0_str <- ask (rt_get_role0 rt) ;;
    role1_str <- ask (rt_get_role1 rt) ;;
    print ("LOAD MODEL " ++ local_id ++ " SUCCESS" ++ endl) ;;;
    mret (mkLocals executable model_path role0_str role1_str).

(** One round of the [while (true)] loop on the line [inp]. *)
Definition Chat_body (fuel : nat) (l : Locals rt) (inp : string) : M rt (LoopCtl rt) :=
  match classify inp with
  | Reset =>
      tell (rt_reset_chat rt) ;;;
      print ("RESET CHAT SUCCESS" ++ endl) ;;;
      mret (Continue l)
  | Reload local_id =>
      l' <- Chat_reload l local_id ;;
      mret (Continue l')
  | Exit => mret Break
  | Stats =>
      stats_text <- ask (rt_runtime_stats_text rt) ;;
      print (stats_text ++ endl) ;;;
      mret (Continue l)
  | Help =>
      print special_commands ;;;
      mret (Continue l)
  | Prompt inp =>
      printed_UTF8_chars <- lift (CountUTF8 char_is_signed "") ;;
      print (role1 l ++ ": ") ;;;
      tell (rt_encode rt inp) ;;;
      generate fuel 0 printed_UTF8_chars ;;;
      print endl ;;;
      mret (Continue l)
  end.

(** The [while (true)] loop.  [cin] holds the lines that [std::getline]
    still reads with the stream left good; when none is left the stream is
    at its end and the loop is left, after the prompt. *)
Fixpoint Chat_loop (fuel : nat) (l : Locals rt) (cin : list string) : M rt unit :=
  print (role0 l ++ ": ") ;;;
  match cin with
  | [] => mret tt
  | inp :: cin' =>
      ctl <- Chat_body fuel l inp ;;
      match ctl with
      | Continue l' => Chat_loop fuel l' cin'
      | Break => mret tt
      end
  end.

Definition Chat (fuel : nat) (executable : Module_ rt) (model_path : string)
    (cin : list string) : M rt unit :=
  try_tell (rt_reload rt executable model_path) ;;;
  role0 <- ask (rt_get_role0 rt) ;;
  role1 <- ask (rt_get_role1 rt) ;;
  Chat_loop fuel (mkLocals executable model_path role0 role1) cin.
End Chat.

(** ** [main] (lines 246-368)

    The arguments are taken as parsed.  What [main] uses besides the runtime
    of [Chat]: the constructor of the chat module, its [evaluate] operation,
    and two facts about the error that [LOG(FATAL)] throws, namely whether
    it is a [std::runtime_error], which the handler of [main] catches, and
    the text of its [what()]. *)
Record Args : Type := mkArgs {
  arg_local_id : string;
  arg_model : string;
  arg_quantization : string;
  arg_device_name : string;
  arg_device_id : Z;
  arg_artifact_path : string;
  arg_evaluate : bool
}.


Record Host (rt : Runtime) : Type := mkHost {
  CreateChatModule : DLDevice -> ChatState rt;
  rt_evaluate : ChatState rt -> ChatState rt;
  fatal_is_runtime_error : bool;
  fatal_what : string -> string
}.
Arguments CreateChatModule {rt} h.
Arguments rt_evaluate {rt} h.
Arguments fatal_is_runtime_error {rt} h.
Arguments fatal_what {rt} h.

(** How the process ends. *)
Inductive ProcessEnd : Type :=
| Exited (code : Z)       (* [return code] from [main], or [exit(code)] *)
| Terminated (e : Exn)    (* an exception no handler catches *)
| Unfinished.             (* the bound on loop iterations was reached *)

(** A run of [main]: both streams, the chat module if it was created, and
    the end of the process. *)
Record MainRun (rt : Runtime) : Type := mkMainRun {
  main_cout : string;
  main_cerr : string;
  main_chat_mod : option (ChatState rt);
  main_end : ProcessEnd
}.
Arguments mkMainRun {rt} main_cout main_cerr main_chat_mod main_end.
Arguments main_cout {rt} m.
Arguments main_cerr {rt} m.
Arguments main_chat_mod {rt} m.
Arguments main_end {rt} m.

(** The end of the process when a call outside the [try] block does not
    return. *)
Definition uncaught {A : Type} (o : Outcome A) : ProcessEnd :=
  match o with
  | Ret _ => Exited 0
  | ExitProcess c => Exited c
  | Raise e => Terminated e
  | NoFuel => Unfinished
  end.

Section Main.
Variable char_is_signed : bool.
Variable DeviceAPI_Get : DLDevice -> bool.
Variable fs : FileSystem.
Variable os : OS.
Variable arch : Arch.
Variable rt : Runtime.
Variable host : Host rt.

(** [catch (const std::runtime_error& err)]: the text written to
    [std::cerr], when the exception is caught. *)
Definition caught_what (e : Exn) : option string :=
  match e with
  | RuntimeError what => Some what
  | FatalLog msg => if fatal_is_runtime_error host then Some (fatal_what host msg) else None
  | OutOfRange => None
  end.

(** The end of [main] after the [try] block, which left the streams
    [cout] and [cerr]. *)
Definition main_finish (cout cerr : string) (chat : option (ChatState rt))
    (o : Outcome unit) : MainRun rt :=
  match o with
  | Ret _ => mkMainRun cout cerr chat (Exited 0)
  | ExitProcess c => mkMainRun cout cerr chat (Exited c)
  | Raise e =>
      match caught_what e with
      | Some what => mkMainRun cout (cerr ++ what ++ endl) chat (Exited 1)
      | None => mkMainRun cout cerr chat (Terminated e)
      end
  | NoFuel => mkMainRun cout cerr chat Unfinished
  end.

Definition main (args : Args) (cin : list string) (fuel : nat) : MainRun rt :=
  match DetectDeviceName DeviceAPI_Get (arg_device_name args) with
  | Ret device_name =>
      match GetDevice device_name (arg_device_id args) with
      | Ret device =>
          let arch_suffix := GetArchSuffix arch in
          let local_id_candidates :=
            main_local_id_candidates (arg_local_id args) (arg_model args)
              (arg_quantization args) in
          let f_search_model_path :=
            f_search_model_path fs os (arg_artifact_path args) device_name arch_suffix in
          let found := f_search_model_path local_id_candidates in
          match run_res found with
          | Ret (lib_path, model_path) =>
              (* try *)
              match LoadFromFile rt lib_path with
              | Ret lib =>
                  let w :=
                    mkWorld (CreateChatModule host device)
                      (run_out found ++ "Initializing the chat module..." ++ endl
                       ++ "Finish loading" ++ endl ++ special_commands)
                      (run_err found) in
                  let (w', o) :=
                    if arg_evaluate args then
                      mbind (try_tell (rt_reload rt lib model_path))
                        (fun _ => tell (rt_evaluate host)) w
                    else
                      Chat char_is_signed rt f_search_model_path 2 fuel lib model_path
                        cin w in
                  main_finish (cout w') (cerr w') (Some (chat_mod w')) o
              | ExitProcess c => main_finish (run_out found) (run_err found) None (ExitProcess c)
              | Raise e => main_finish (run_out found) (run_err found) None (Raise e)
              | NoFuel => main_finish (run_out found) (run_err found) None NoFuel
              end
          | other => mkMainRun (run_out found) (run_err found) None (uncaught other)
          end
      | other => mkMainRun "" "" None (uncaught other)
      end
  | other => mkMainRun "" "" None (uncaught other)
  end.
End Main.

(** * Concrete file systems and runtimes, for the examples *)

Definition in_list (p : string) (l : list string) : bool := existsb (String.eqb p) l.

(** A file system without links: [files] and [dirs] are the canonical paths
    of its regular files and directories, [cwd] the current directory. *)
Definition absolute (cwd p : string) : string :=
  if String.prefix "/" p then p else cwd ++ "/" ++ p.

Definition simple_fs (cwd : string) (files dirs : list string) : FileSystem :=
  {| fs_exists := fun p => in_list (absolute cwd p) (files ++ dirs)%list;
     fs_canonical := fun p => absolute cwd p;
     fs_is_regular_file := fun p => in_list (absolute cwd p) files |}.

(** Two directories [d1] and [d2]: [d1/a.y] is a directory, [d1/b.x] and
    [d2/a.x] are regular files. *)
Definition fs_d1_d2 : FileSystem :=
  simple_fs "/w" ["/w/d1/b.x"; "/w/d2/a.x"] ["/w"; "/w/d1"; "/w/d2"; "/w/d1/a.y"].

(** The same directories, empty. *)
Definition fs_empty : FileSystem := simple_fs "/w" [] ["/w"; "/w/d1"; "/w/d2"].

(** The layout of the specification's example: the library under [lib/]. *)
Definition fs_lib_subdir : FileSystem :=
  simple_fs "/home/user/mlc-llm"
    ["/home/user/mlc-llm/dist/foo-q4f16_0/params/mlc-chat-config.json";
     "/home/user/mlc-llm/dist/foo-q4f16_0/params/ndarray-cache.json";
     "/home/user/mlc-llm/dist/foo-q4f16_0/lib/foo-q4f16_0-cuda.so"]
    ["/home/user/mlc-llm"; "/home/user/mlc-llm/dist";
     "/home/user/mlc-llm/dist/foo-q4f16_0";
     "/home/user/mlc-llm/dist/foo-q4f16_0/params";
     "/home/user/mlc-llm/dist/foo-q4f16_0/lib"].

(** The layout the search expects, under the current directory [cwd]: the
    library next to [params/]. *)
Definition fs_sibling_in (cwd : string) : FileSystem :=
  simple_fs cwd
    [cwd ++ "/dist/foo-q4f16_0/params/mlc-chat-config.json";
     cwd ++ "/dist/foo-q4f16_0/params/ndarray-cache.json";
     cwd ++ "/dist/foo-q4f16_0/foo-q4f16_0-cuda.so"]
    [cwd; cwd ++ "/dist"; cwd ++ "/dist/foo-q4f16_0"; cwd ++ "/dist/foo-q4f16_0/params"].

Definition fs_lib_sibling : FileSystem := fs_sibling_in "/home/user/mlc-llm".

(** A model directory that is a link to [/data]: the configuration file
    found under [dist/prebuilt/foo-q4f16_0] has the canonical path
    [/data/mlc-chat-config.json].  The library is in [/lib]. *)
Definition fs_linked_model : FileSystem :=
  {| fs_exists := fun p =>
       in_list p ["dist/prebuilt/foo-q4f16_0/mlc-chat-config.json";
                  "/data/mlc-chat-config.json"; "/data/ndarray-cache.json";
                  "/lib/foo-q4f16_0-cuda.so"; "//lib/foo-q4f16_0-cuda.so"];
     fs_canonical := fun p =>
       if p =? "dist/prebuilt/foo-q4f16_0/mlc-chat-config.json"
       then "/data/mlc-chat-config.json"
       else if p =? "//lib/foo-q4f16_0-cuda.so" then "/lib/foo-q4f16_0-cuda.so"
       else p;
     fs_is_regular_file := fun p =>
       in_list p ["/data/mlc-chat-config.json"; "/data/ndarray-cache.json";
                  "/lib/foo-q4f16_0-cuda.so"] |}.

(** A runtime that echoes the prompt in three pieces.  Its role names are
    read anew at each [reload]: they alternate with the number of reloads. *)
Record EchoState : Type := mkEcho {
  es_lib : string;
  es_model_path : string;
  es_reloads : nat;
  es_message : string;
  es_pending : list string
}.

Definition echo_rt : Runtime :=
  {| Module_ := string;
     ChatState := EchoState;
     LoadFromFile := fun lib_path => Ret lib_path;
     rt_reload := fun lib path st => Ret (mkEcho lib path (S (es_reloads st)) "" []);
     rt_reset_chat := fun st =>
       mkEcho (es_lib st) (es_model_path st) (es_reloads st) "" [];
     rt_stopped := fun st => match es_pending st with [] => true | _ => false end;
     rt_encode := fun inp st =>
       mkEcho (es_lib st) (es_model_path st) (es_reloads st) "" ["You"; " said: "; inp];
     rt_decode := fun st =>
       match es_pending st with
       | [] => st
       | piece :: rest =>
           mkEcho (es_lib st) (es_model_path st) (es_reloads st)
                  (es_message st ++ piece) rest
       end;
     rt_get_message := es_message;
     rt_runtime_stats_text := fun _ => "encode: 0.0 tok/s, decode: 0.0 tok/s";
     rt_get_role0 := fun st => if Nat.odd (es_reloads st) then "USER" else "HUMAN";
     rt_get_role1 := fun st => if Nat.odd (es_reloads st) then "ASSISTANT" else "BOT" |}.

Definition echo_start : World echo_rt :=
  @mkWorld echo_rt (mkEcho "" "" 0 "" []) "" "".

(** The search of [main] on [fs_lib_sibling], on x86-64 Linux. *)
Definition sibling_search : list string -> Run (string * string) :=
  f_search_model_path fs_lib_sibling OtherOS "dist" "cuda" (GetArchSuffix X86_64).

(** A session of the echo runtime right after the [reload] that [Chat]
    starts with. *)
Definition echo_locals : Locals echo_rt :=
  @mkLocals echo_rt "startup-lib.so" "/startup/params" "USER" "ASSISTANT".

Definition echo_loaded : World echo_rt :=
  @mkWorld echo_rt (mkEcho "startup-lib.so" "/startup/params" 1 "" []) "" "".

(** The same session after [/reload foo-q4f16_0]. *)
Definition echo_locals_foo : Locals echo_rt :=
  @mkLocals echo_rt "/home/user/mlc-llm/dist/foo-q4f16_0/foo-q4f16_0-cuda.so"
    "/home/user/mlc-llm/dist/foo-q4f16_0/params" "HUMAN" "BOT".

Definition echo_loaded_foo : World echo_rt :=
  fst (Chat_body true echo_rt sibling_search 2 10 echo_locals "/reload foo-q4f16_0"
         echo_loaded).

(** The world after one more round on the line [inp]. *)
Definition echo_round (l : Locals echo_rt) (inp : string) (w : World echo_rt)
  : World echo_rt :=
  fst (mbind (print (role0 l ++ ": "))
         (fun _ => Chat_body true echo_rt sibling_search 2 10 l inp) w).

(** The session after [/reload foo-q4f16_0], [/stats] and the prompt [hi]. *)
Definition echo_later_foo : World echo_rt :=
  echo_round echo_locals_foo "hi" (echo_round echo_locals_foo "/stats" echo_loaded_foo).

(** * Vocabulary of the properties *)

(** The backend kind a device name of the data model stands for. *)
Definition backend_of_name (name : string) : option DLDeviceType :=
  if name =? "cuda" then Some kDLCUDA
  else if name =? "metal" then Some kDLMetal
  else if name =? "vulkan" then Some kDLVulkan
  else if name =? "opencl" then Some kDLOpenCL
  else if name =? "cpu" then Some kDLCPU
  else None.

(** What a redraw step writes, as actions. *)
Inductive Action : Type :=
| Erase                      (* one erase sequence *)
| Print (cluster : string).  (* one cluster written *)

Definition render_action (a : Action) : string :=
  match a with
  | Erase => erase_seq
  | Print c => c
  end.

Definition render (acts : list Action) : string := join (map render_action acts).

(** The Cartesian product of directories, names and suffixes, directories
    outermost and suffixes innermost. *)
Definition probe_order (search_paths names suffixes : list string) : list string :=
  flat_map (fun dir =>
    flat_map (fun name =>
      map (fun suffix => dir ++ "/" ++ name ++ suffix) suffixes) names) search_paths.

(** A scan of [paths] that stops at the first one that exists and whose
    canonical path is a regular file: the paths looked at, and that canonical
    path. *)
Fixpoint first_hit (fs : FileSystem) (paths : list string) : list string * option string :=
  match paths with
  | [] => ([], None)
  | p :: rest =>
      match probe fs p with
      | Some found => ([p], Some found)
      | None => let (tr, r) := first_hit fs rest in (p :: tr, r)
      end
  end.

Fixpoint string_forallb (f : ascii -> bool) (s : string) : bool :=
  match s with
  | EmptyString => true
  | String c r => f c && string_forallb f r
  end.

(** The length of the sequence a lead byte announces: [0xxxxxxx] one byte,
    [110xxxxx] two, [1110xxxx] three, [11110xxx] four. *)
Definition utf8_class (lead : ascii) : option nat :=
  let n := nat_of_ascii lead in
  if (n <? 128)%nat then Some 1
  else if (192 <=? n)%nat && (n <? 224)%nat then Some 2
  else if (224 <=? n)%nat && (n <? 240)%nat then Some 3
  else if (240 <=? n)%nat && (n <? 248)%nat then Some 4
  else None.

(** A continuation byte: [10xxxxxx]. *)
Definition is_continuation (c : ascii) : bool :=
  let n := nat_of_ascii c in (128 <=? n)%nat && (n <? 192)%nat.

(** One well-formed sequence: a lead byte followed by as many continuation
    bytes as it announces. *)
Definition well_formed_seq (q : string) : bool :=
  match q with
  | EmptyString => false
  | String lead rest =>
      match utf8_class lead with
      | Some n => (String.length q =? n)%nat && string_forallb is_continuation rest
      | None => false
      end
  end.

(** The cluster agrees with the class of its lead byte. *)
Definition cluster_matches_lead (c : string) : Prop :=
  utf8_class (at_ c 0) = Some (String.length c).

(** The second token of a line. *)
Definition second_token (inp : string) : string := fst (extract (snd (extract inp))).

Definition no_space (s : string) : bool := string_forallb (fun c => negb (is_space c)) s.

(** The length of the longest common leading run of two sequences. *)
Fixpoint common_prefix_length (A B : list string) : nat :=
  match A, B with
  | a :: A', b :: B' => if a =? b then S (common_prefix_length A' B') else 0
  | _, _ => 0
  end.

(** A string of bytes given by their values. *)
Definition bytes (l : list nat) : string :=
  string_of_list_ascii (map ascii_of_nat l).

(** The encodings of U+0061, U+00E9, U+20AC and U+1F600. *)
Definition utf8_sample : list string :=
  [bytes [97]; bytes [195; 169]; bytes [226; 130; 172]; bytes [240; 159; 152; 128]].

(** The resolution of [id] fails: no configuration file, no library or no
    parameter cache is found for it. *)
Inductive resolution_fails (fs : FileSystem) (os : OS)
    (artifact_path device_name arch_suffix id : string) : Prop :=
| no_config :
    search_config fs artifact_path [id] = None ->
    resolution_fails fs os artifact_path device_name arch_suffix id
| no_library (config_path local_id lib_dir : string) :
    search_config fs artifact_path [id] = Some (config_path, local_id) ->
    lib_dir_path (parent_path config_path) = Ret lib_dir ->
    FindFile fs [lib_dir] (lib_candidates device_name arch_suffix local_id)
      (GetLibSuffixes os) = None ->
    resolution_fails fs os artifact_path device_name arch_suffix id
| no_params (config_path local_id lib_dir lib_path : string) :
    search_config fs artifact_path [id] = Some (config_path, local_id) ->
    lib_dir_path (parent_path config_path) = Ret lib_dir ->
    FindFile fs [lib_dir] (lib_candidates device_name arch_suffix local_id)
      (GetLibSuffixes os) = Some lib_path ->
    FindFile fs [parent_path config_path] ["ndarray-cache"] [".json"] = None ->
    resolution_fails fs os artifact_path device_name arch_suffix id.

(** The rounds of the loop of [Chat] on the lines [cin], each of which goes
    on to the next: the variables and the world before and after. *)
Inductive session_run (char_is_signed : bool) (rt : Runtime)
    (f_search_model_path : list string -> Run (string * string))
    (stream_interval : Z) (fuel : nat)
  : Locals rt -> World rt -> list string -> Locals rt -> World rt -> Prop :=
| run_done (l : Locals rt) (w : World rt) :
    session_run char_is_signed rt f_search_model_path stream_interval fuel l w [] l w
| run_round (l l1 l2 : Locals rt) (w w1 w2 : World rt) (inp : string) (cin : list string) :
    mbind (print (role0 l ++ ": "))
      (fun _ => Chat_body char_is_signed rt f_search_model_path stream_interval fuel l inp) w
    = (w1, Ret (Continue l1)) ->
    session_run char_is_signed rt f_search_model_path stream_interval fuel l1 w1 cin l2 w2 ->
    session_run char_is_signed rt f_search_model_path stream_interval fuel
      l w (inp :: cin) l2 w2.

(** What a round ends with when it calls [reload] on [exe] and [path] and
    nothing else: the chat module reloaded, the acknowledgement written and
    the variables [l] kept. *)
Definition reloaded_with {rt : Runtime} (exe : Module_ rt) (path : string)
    (l : Locals rt) (w : World rt) : World rt * Outcome (LoopCtl rt) :=
  match rt_reload rt exe path (chat_mod w) with
  | Ret m =>
      (mkWorld m (cout w ++ "RELOAD THE SAME MODEL SUCCESS" ++ endl) (cerr w),
       Ret (Continue l))
  | ExitProcess c => (w, ExitProcess c)
  | Raise e => (w, Raise e)
  | NoFuel => (w, NoFuel)
  end.

(** The line is not a [/reload] with an identifier. *)
Definition keeps_model (inp : string) : bool :=
  match classify inp with
  | Reload local_id => local_id =? ""
  | _ => true
  end.

(** The terminal line as the clusters it shows: an erase sequence removes
    the last one, a cluster written comes after the last one. *)
Definition apply_action (screen : list string) (a : Action) : list string :=
  match a with
  | Erase => removelast screen
  | Print c => (screen ++ [c])%list
  end.

Definition apply_actions (acts : list Action) (screen : list string) : list string :=
  fold_left apply_action acts screen.

(** What successive redraw steps write, from the clusters [printed] through
    the cluster sequences [frames]. *)
Fixpoint redraws (printed : list string) (frames : list (list string)) : list string :=
  match frames with
  | [] => []
  | frame :: rest => redraw_print printed frame :: redraws frame rest
  end.

Definition all_space (s : string) : bool := string_forallb is_space s.

(** The string is empty or starts with white space. *)
Definition at_token_end (s : string) : bool :=
  match s with
  | EmptyString => true
  | String c _ => is_space c
  end.

(** The name [DetectDeviceName] gives a backend kind. *)
Definition name_of_backend (kind : DLDeviceType) : string :=
  match kind with
  | kDLCPU => "cpu"
  | kDLCUDA => "cuda"
  | kDLMetal => "metal"
  | kDLVulkan => "vulkan"
  | kDLOpenCL => "opencl"
  end.

(** The backends probed by ["auto"], in this order. *)
Definition auto_backends : list DLDeviceType := [kDLCUDA; kDLMetal; kDLVulkan; kDLOpenCL].

(** The prebuilt layout under the current directory [cwd]: the model
    directory under [dist/prebuilt], the library in [dist/prebuilt/lib]. *)
Definition fs_prebuilt_in (cwd : string) : FileSystem :=
  simple_fs cwd
    [cwd ++ "/dist/prebuilt/foo-q4f16_0/mlc-chat-config.json";
     cwd ++ "/dist/prebuilt/foo-q4f16_0/ndarray-cache.json";
     cwd ++ "/dist/prebuilt/lib/foo-q4f16_0-cuda.so"]
    [cwd; cwd ++ "/dist"; cwd ++ "/dist/prebuilt"; cwd ++ "/dist/prebuilt/foo-q4f16_0";
     cwd ++ "/dist/prebuilt/lib"].

(** A host of the echo runtime: [LOG(FATAL)] throws a [std::runtime_error]. *)
Definition echo_host : Host echo_rt :=
  @mkHost echo_rt (fun _ => mkEcho "" "" 0 "" []) (fun st => st) true
    (fun msg => msg).

(** An echo runtime whose message is cut in the middle of a character: the
    first piece ends with the lead byte of a two-byte sequence. *)
Definition cut_rt : Runtime :=
  {| Module_ := string;
     ChatState := EchoState;
     LoadFromFile := LoadFromFile echo_rt;
     rt_reload := rt_reload echo_rt;
     rt_reset_chat := rt_reset_chat echo_rt;
     rt_stopped := rt_stopped echo_rt;
     rt_encode := fun inp st =>
       mkEcho (es_lib st) (es_model_path st) (es_reloads st) ""
         [String (ascii_of_nat 195) EmptyString; String (ascii_of_nat 169) EmptyString];
     rt_decode := rt_decode echo_rt;
     rt_get_message := rt_get_message echo_rt;
     rt_runtime_stats_text := rt_runtime_stats_text echo_rt;
     rt_get_role0 := rt_get_role0 echo_rt;
     rt_get_role1 := rt_get_role1 echo_rt |}.

(** The world after the round of [Chat] on the line [inp], in the session
    of the echo runtime right after its start. *)
Definition echo_round_body (inp : string) : World echo_rt :=
  fst (Chat_body true echo_rt sibling_search 2 10 echo_locals inp echo_loaded).

(** The world [w'] comes after [w] with more written to [std::cout] and
    [err] written to [std::cerr]. *)
Definition writes {rt : Runtime} (err : string) (w w' : World rt) : Prop :=
  cerr w' = cerr w ++ err /\ exists out, cout w' = cout w ++ out.

(** What [main] writes between the search and the call of [Chat]. *)
Definition banner : string :=
  "Initializing the chat module..." ++ endl ++ "Finish loading" ++ endl
  ++ special_commands.


Definition cuda_only (dev : DLDevice) : bool :=
  match device_type dev with
  | kDLCUDA => true
  | _ => false
  end.

Definition args_cpu : Args := mkArgs "" "vicuna-v1-7b" "auto" "cpu" 0 "dist" false.

Definition args_foo (evaluate : bool) : Args :=
  mkArgs "foo-q4f16_0" "vicuna-v1-7b" "auto" "auto" 0 "dist" evaluate.

(** The session [main] starts on [fs_lib_sibling] with the echo runtime,
    and the world after the lines [hello] and [/stats]. *)
Definition main_echo_locals : Locals echo_rt :=
  @mkLocals echo_rt "/home/user/mlc-llm/dist/foo-q4f16_0/foo-q4f16_0-cuda.so"
    "/home/user/mlc-llm/dist/foo-q4f16_0/params" "USER" "ASSISTANT".

Definition main_echo_start : World echo_rt :=
  @mkWorld echo_rt
    (mkEcho "/home/user/mlc-llm/dist/foo-q4f16_0/foo-q4f16_0-cuda.so"
       "/home/user/mlc-llm/dist/foo-q4f16_0/params" 1 "" [])
    (run_out (sibling_search ["foo-q4f16_0"]) ++ banner)
    (run_err (sibling_search ["foo-q4f16_0"])).

Definition main_echo_later : World echo_rt :=
  echo_round main_echo_locals "/stats" (echo_round main_echo_locals "hello" main_echo_start).

(** * Properties *)

(** ** Devices *)

Lemma GetDevice_unknown (name : string) (id : Z) :
  ~ In name ["cuda"; "metal"; "vulkan"; "opencl"] ->
  GetDevice name id = Raise (FatalLog ("Do not recognize device name " ++ name)).
Proof.
  intros H. unfold GetDevice.
  destruct (String.eqb_spec name "cuda") as [->|_]; [exfalso; apply H; simpl; auto|].
  destruct (String.eqb_spec name "metal") as [->|_]; [exfalso; apply H; simpl; auto|].
  destruct (String.eqb_spec name "vulkan") as [->|_]; [exfalso; apply H; simpl; auto|].
  destruct (String.eqb_spec name "opencl") as [->|_]; [exfalso; apply H; simpl; auto 6|].
  reflexivity.
Qed.

Lemma DetectDeviceName_not_auto (probe : DLDevice -> bool) (name : string) :
  name <> "auto" -> DetectDeviceName probe name = Ret name.
Proof.
  intros H. unfold DetectDeviceName.
  destruct (String.eqb_spec name "auto"); [contradiction | reflexivity].
Qed.

(** C4, as stated, fails at ["cpu"]: the name stands for the backend kind
    [kDLCPU] in the data model, and resolving it is fatal. *)
Lemma cpu_is_rejected :
  backend_of_name "cpu" = Some kDLCPU /\
  main_device (fun _ => true) "cpu" 0
  = Raise (FatalLog "Do not recognize device name cpu").
Proof. split; reflexivity. Qed.

(** C4, amended: a requested device name other than ["auto"] resolves to a
    descriptor of its backend kind with the given ordinal when it is one of
    [cuda], [metal], [vulkan], [opencl]; every other name, [cpu] included,
    fails fatally. *)
Theorem main_device_by_name (probe : DLDevice -> bool) (name : string) (id : Z) :
  name <> "auto" ->
  (In name ["cuda"; "metal"; "vulkan"; "opencl"] ->
   exists kind, backend_of_name name = Some kind /\
                main_device probe name id = Ret (mkDLDevice kind id)) /\
  (~ In name ["cuda"; "metal"; "vulkan"; "opencl"] ->
   main_device probe name id
   = Raise (FatalLog ("Do not recognize device name " ++ name))).
Proof.
  intros Hauto. unfold main_device.
  rewrite (DetectDeviceName_not_auto probe name Hauto). simpl. split.
  - intros [<-|[<-|[<-|[<-|[]]]]]; eexists; split; reflexivity.
  - apply GetDevice_unknown.
Qed.

Lemma main_device_by_name_witness :
  (exists kind, backend_of_name "vulkan" = Some kind /\
                main_device (fun _ => false) "vulkan" 3 = Ret (mkDLDevice kind 3)) /\
  main_device (fun _ => false) "tpu" 3
  = Raise (FatalLog "Do not recognize device name tpu").
Proof.
  split.
  - apply (main_device_by_name (fun _ => false) "vulkan" 3).
    + discriminate.
    + simpl; auto.
  - apply (main_device_by_name (fun _ => false) "tpu" 3).
    + discriminate.
    + simpl. intros [H|[H|[H|[H|[]]]]]; discriminate H.
Defined.

(** ** [FindFile] *)

Section FindFileFacts.
Variable fs : FileSystem.

Lemma probe_Some (p found : string) :
  probe fs p = Some found <->
  fs_exists fs p = true /\ found = fs_canonical fs p /\ fs_is_regular_file fs found = true.
Proof.
  unfold probe. destruct (fs_exists fs p).
  - destruct (fs_is_regular_file fs (fs_canonical fs p)) eqn:E; split.
    + intros [= <-]. auto.
    + intros (_ & -> & _). reflexivity.
    + discriminate.
    + intros (_ & -> & H). congruence.
  - split; [discriminate | intros (H & _); discriminate H].
Qed.

Lemma probe_None (p : string) :
  probe fs p = None <->
  ~ (fs_exists fs p = true /\ fs_is_regular_file fs (fs_canonical fs p) = true).
Proof.
  unfold probe. destruct (fs_exists fs p).
  - destruct (fs_is_regular_file fs (fs_canonical fs p)); split;
      try discriminate; try tauto.
    intros _ [_ H]. discriminate H.
  - split; [intros _ [H _]; discriminate H | reflexivity].
Qed.

Lemma first_hit_app (l1 l2 : list string) :
  first_hit fs (l1 ++ l2) =
  match first_hit fs l1 with
  | (tr, Some found) => (tr, Some found)
  | (tr, None) => let (tr', r) := first_hit fs l2 in ((tr ++ tr')%list, r)
  end.
Proof.
  induction l1 as [|p l1 IH]; simpl.
  - destruct (first_hit fs l2); reflexivity.
  - destruct (probe fs p); [reflexivity|].
    rewrite IH. destruct (first_hit fs l1) as [tr [found|]]; [reflexivity|].
    destruct (first_hit fs l2); reflexivity.
Qed.

Lemma FindFile_suffixes_scan (dir name : string) (suffixes : list string) :
  FindFile_suffixes fs dir name suffixes =
  first_hit fs (map (fun suffix => dir ++ "/" ++ name ++ suffix) suffixes).
Proof.
  induction suffixes as [|x l IH]; simpl; [reflexivity|].
  destruct (probe fs _); [reflexivity|]. rewrite IH. reflexivity.
Qed.

Lemma FindFile_names_scan (dir : string) (names suffixes : list string) :
  FindFile_names fs dir names suffixes =
  first_hit fs (flat_map (fun name =>
    map (fun suffix => dir ++ "/" ++ name ++ suffix) suffixes) names).
Proof.
  induction names as [|n l IH]; simpl; [reflexivity|].
  rewrite first_hit_app, FindFile_suffixes_scan, IH. reflexivity.
Qed.

Lemma FindFile_trace_scan (search_paths names suffixes : list string) :
  FindFile_trace fs search_paths names suffixes =
  first_hit fs (probe_order search_paths names suffixes).
Proof.
  unfold probe_order.
  induction search_paths as [|d l IH]; simpl; [reflexivity|].
  rewrite first_hit_app, FindFile_names_scan, IH. reflexivity.
Qed.

Lemma first_hit_None (paths : list string) :
  snd (first_hit fs paths) = None <-> Forall (fun p => probe fs p = None) paths.
Proof.
  induction paths as [|p l IH]; simpl.
  - split; auto.
  - destruct (probe fs p) eqn:E.
    + split; [discriminate|]. intros H. inversion H; congruence.
    + destruct (first_hit fs l) as [tr r]. simpl in *. rewrite IH.
      split; [intros H; constructor; assumption | intros H; inversion H; assumption].
Qed.

Lemma first_hit_None_trace (paths : list string) :
  snd (first_hit fs paths) = None -> fst (first_hit fs paths) = paths.
Proof.
  induction paths as [|p l IH]; simpl; [reflexivity|].
  destruct (probe fs p); [discriminate|].
  destruct (first_hit fs l) as [tr r]. simpl in *. intros H. rewrite IH; auto.
Qed.

Lemma first_hit_Some (paths : list string) (found : string) :
  snd (first_hit fs paths) = Some found ->
  exists before p after,
    paths = (before ++ p :: after)%list /\
    Forall (fun q => probe fs q = None) before /\
    probe fs p = Some found /\
    fst (first_hit fs paths) = (before ++ [p])%list.
Proof.
  induction paths as [|p l IH]; simpl; [discriminate|].
  destruct (probe fs p) eqn:E.
  - intros [= <-]. exists [], p, l. simpl. auto.
  - destruct (first_hit fs l) as [tr r]. simpl in *. intros H.
    destruct (IH H) as (b & q & a & -> & Hb & Hq & Htr).
    exists (p :: b), q, a. simpl. rewrite Htr. auto.
Qed.
End FindFileFacts.

(** C7: [FindFile] hands to [exists] the paths of the product of
    directories, names and suffixes, directories outermost and suffixes
    innermost, and stops at the first one that exists and whose canonical path
    is a regular file, which it returns; it returns nothing when the product
    is exhausted. *)
Theorem FindFile_probe_order (fs : FileSystem) (search_paths names suffixes : list string) :
  FindFile_trace fs search_paths names suffixes
  = first_hit fs (probe_order search_paths names suffixes)
  /\ probe_order ["d1"; "d2"] ["a"; "b"] [".x"; ".y"]
     = ["d1/a.x"; "d1/a.y"; "d1/b.x"; "d1/b.y"; "d2/a.x"; "d2/a.y"; "d2/b.x"; "d2/b.y"]
  /\ (FindFile fs search_paths names suffixes = None <->
      Forall (fun p => ~ (fs_exists fs p = true
                          /\ fs_is_regular_file fs (fs_canonical fs p) = true))
             (probe_order search_paths names suffixes))
  /\ (FindFile fs search_paths names suffixes = None ->
      fst (FindFile_trace fs search_paths names suffixes)
      = probe_order search_paths names suffixes)
  /\ (forall found, FindFile fs search_paths names suffixes = Some found ->
      exists before p after,
        probe_order search_paths names suffixes = (before ++ p :: after)%list /\
        Forall (fun q => ~ (fs_exists fs q = true
                            /\ fs_is_regular_file fs (fs_canonical fs q) = true)) before /\
        fs_exists fs p = true /\
        found = fs_canonical fs p /\
        fs_is_regular_file fs found = true /\
        fst (FindFile_trace fs search_paths names suffixes) = (before ++ [p])%list).
Proof.
  unfold FindFile. rewrite FindFile_trace_scan.
  split; [reflexivity|]. split; [reflexivity|]. split; [|split].
  - rewrite first_hit_None. split; intros H; eapply Forall_impl; try exact H;
      intros p Hp; apply probe_None; exact Hp.
  - apply first_hit_None_trace.
  - intros found H.
    destruct (first_hit_Some fs _ _ H) as (b & p & a & Hl & Hb & Hp & Htr).
    exists b, p, a. apply probe_Some in Hp. destruct Hp as (He & Hc & Hr).
    repeat split; auto.
    eapply Forall_impl; [|exact Hb]. intros q Hq. apply probe_None. exact Hq.
Qed.

(** The example of the specification, on an empty tree and on one where
    the third path probed is the first regular file. *)
Example FindFile_d1_d2 :
  FindFile_trace fs_empty ["d1"; "d2"] ["a"; "b"] [".x"; ".y"]
  = (["d1/a.x"; "d1/a.y"; "d1/b.x"; "d1/b.y"; "d2/a.x"; "d2/a.y"; "d2/b.x"; "d2/b.y"],
     None)
  /\ FindFile_trace fs_d1_d2 ["d1"; "d2"] ["a"; "b"] [".x"; ".y"]
     = (["d1/a.x"; "d1/a.y"; "d1/b.x"], Some "/w/d1/b.x").
Proof. split; vm_compute; reflexivity. Qed.

(** ** Classification of the input line *)

Lemma substr_is_prefix (lit inp : string) :
  (substr inp 0 (String.length lit) =? lit) = String.prefix lit inp.
Proof.
  unfold substr.
  destruct (String.prefix lit inp) eqn:E.
  - apply String.eqb_eq, prefix_correct, E.
  - apply String.eqb_neq. intros H. apply prefix_correct in H. congruence.
Qed.

Lemma skip_ws_no_space (s : string) : no_space s = true -> skip_ws s = s.
Proof.
  unfold no_space. destruct s as [|c r]; simpl; [reflexivity|].
  destruct (is_space c); simpl; [discriminate | reflexivity].
Qed.

Lemma read_token_no_space (s : string) :
  no_space s = true -> read_token s = (s, EmptyString).
Proof.
  unfold no_space. induction s as [|c r IH]; simpl; [reflexivity|].
  destruct (is_space c); simpl; [discriminate|].
  intros H. rewrite (IH H). reflexivity.
Qed.

Lemma classify_reload_id (id : string) :
  no_space id = true -> classify ("/reload " ++ id) = Reload id.
Proof.
  intros H. unfold classify, extract. simpl.
  rewrite (skip_ws_no_space id H), (read_token_no_space id H). reflexivity.
Qed.

(** C9: the line is matched against the literal prefixes [/reset],
    [/reload], [/exit], [/stats], [/help] in this order and the first match
    decides; a line with none of them is a prompt that carries the whole
    line.  A [/reload] followed by a blank and an identifier carries the
    identifier. *)
Theorem classify_by_prefix (inp : string) :
  classify inp =
    (if String.prefix "/reset" inp then Reset
     else if String.prefix "/reload" inp then Reload (second_token inp)
     else if String.prefix "/exit" inp then Exit
     else if String.prefix "/stats" inp then Stats
     else if String.prefix "/help" inp then Help
     else Prompt inp)
  /\ classify "/reload foo-q4f16_0" = Reload "foo-q4f16_0"
  /\ classify "hello" = Prompt "hello"
  /\ (forall id, no_space id = true -> classify ("/reload " ++ id) = Reload id).
Proof.
  split; [|split; [reflexivity|split; [reflexivity|exact classify_reload_id]]].
  unfold classify, second_token.
  pose proof (substr_is_prefix "/reset" inp) as H1.
  pose proof (substr_is_prefix "/reload" inp) as H2.
  pose proof (substr_is_prefix "/exit" inp) as H3.
  pose proof (substr_is_prefix "/stats" inp) as H4.
  pose proof (substr_is_prefix "/help" inp) as H5.
  cbn [String.length] in H1, H2, H3, H4, H5.
  rewrite H1, H2, H3, H4, H5.
  destruct (String.prefix "/reset" inp); [reflexivity|].
  destruct (String.prefix "/reload" inp); [|reflexivity].
  destruct (extract inp) as [reload_prompt rest]. simpl.
  destruct (extract rest) as [local_id rest']. reflexivity.
Qed.

(** ** Strings *)

Lemma append_nil_r (s : string) : s ++ "" = s.
Proof. induction s as [|c r IH]; simpl; [reflexivity | rewrite IH; reflexivity]. Qed.

Lemma append_assoc (a b c : string) : (a ++ b) ++ c = a ++ (b ++ c).
Proof. induction a as [|x r IH]; simpl; [reflexivity | rewrite IH; reflexivity]. Qed.

Lemma length_append (a b : string) :
  String.length (a ++ b) = String.length a + String.length b.
Proof. induction a as [|x r IH]; simpl; [reflexivity | rewrite IH; reflexivity]. Qed.

Lemma at_append (p s : string) (k : nat) : at_ (p ++ s) (String.length p + k) = at_ s k.
Proof.
  unfold at_. induction p as [|x r IH]; simpl; [reflexivity | exact IH].
Qed.

Lemma substring_append (p s : string) (n : nat) :
  substring (String.length p) n (p ++ s) = substring 0 n s.
Proof. induction p as [|x r IH]; simpl; [reflexivity | exact IH]. Qed.

Lemma substring_whole (q r : string) : substring 0 (String.length q) (q ++ r) = q.
Proof.
  induction q as [|x q IH]; simpl.
  - destruct r; reflexivity.
  - rewrite IH. reflexivity.
Qed.

Lemma join_app (l1 l2 : list string) : join (l1 ++ l2) = join l1 ++ join l2.
Proof.
  induction l1 as [|x l IH]; simpl; [reflexivity|].
  rewrite IH, append_assoc. reflexivity.
Qed.

(** ** Counted loops *)

Lemma for_range_fuel_fold {St : Type} (body : nat -> St -> St) (n j hi : nat) (st : St) :
  n = hi - j ->
  for_range_fuel n j hi body st = fold_left (fun st j => body j st) (seq j n) st.
Proof.
  revert j st. induction n as [|n IH]; intros j st Hn; simpl; [reflexivity|].
  destruct (Nat.ltb_spec j hi); [|lia].
  rewrite Nat.add_1_r. apply IH. lia.
Qed.

Lemma for_range_fold {St : Type} (body : nat -> St -> St) (lo hi : nat) (st : St) :
  for_range lo hi body st = fold_left (fun st j => body j st) (seq lo (hi - lo)) st.
Proof. apply for_range_fuel_fold. reflexivity. Qed.

Lemma fold_append (f : nat -> string) (l : list nat) (print : string) :
  fold_left (fun print j => print ++ f j) l print = print ++ join (map f l).
Proof.
  revert print. induction l as [|j l IH]; intros print; simpl.
  - symmetry. apply append_nil_r.
  - rewrite IH, append_assoc. reflexivity.
Qed.

Lemma map_nth_seq (B : list string) (i : nat) :
  map (fun j => nth j B "") (seq i (List.length B - i)) = skipn i B.
Proof.
  revert i. induction B as [|b B IH]; intros i; simpl.
  - destruct i; reflexivity.
  - destruct i as [|i]; simpl.
    + f_equal. rewrite <- seq_shift, map_map.
      specialize (IH 0). rewrite Nat.sub_0_r in IH. simpl in IH. exact IH.
    + rewrite <- (IH i), <- seq_shift, map_map. reflexivity.
Qed.

Lemma map_const_seq (x : string) (i n : nat) : map (fun _ => x) (seq i n) = repeat x n.
Proof. revert i. induction n as [|n IH]; intros i; simpl; [reflexivity | rewrite IH; reflexivity]. Qed.

(** ** The redraw step *)

Lemma skipn_nth_cons (A : list string) (i : nat) :
  i < List.length A -> skipn i A = nth i A "" :: skipn (S i) A.
Proof.
  revert i. induction A as [|a A IH]; intros i Hi; simpl in *; [lia|].
  destruct i as [|i]; [reflexivity|]. apply IH. lia.
Qed.

Lemma common_run_fuel_spec (n i : nat) (A B : list string) :
  Nat.min (List.length A) (List.length B) - i <= n ->
  common_run_fuel n i A B = i + common_prefix_length (skipn i A) (skipn i B).
Proof.
  revert i. induction n as [|n IH]; intros i Hn; simpl.
  - assert (HA : skipn i A = [] \/ skipn i B = []).
    { destruct (Nat.le_ge_cases (List.length A) (List.length B)).
      - left. apply skipn_all2. lia.
      - right. apply skipn_all2. lia. }
    destruct HA as [-> | ->]; simpl; [lia|].
    destruct (skipn i A); simpl; lia.
  - destruct (Nat.ltb_spec i (Nat.min (List.length A) (List.length B))) as [Hi|Hi].
    + rewrite (skipn_nth_cons A i) by lia. rewrite (skipn_nth_cons B i) by lia.
      cbn [common_prefix_length].
      destruct (nth i A "" =? nth i B ""); cbn [negb]; [|lia].
      rewrite Nat.add_1_r, IH by lia. lia.
    + assert (HA : skipn i A = [] \/ skipn i B = []).
      { destruct (Nat.le_ge_cases (List.length A) (List.length B)).
        - left. apply skipn_all2. lia.
        - right. apply skipn_all2. lia. }
      destruct HA as [-> | ->]; simpl; [lia|].
      destruct (skipn i A); simpl; lia.
Qed.

Lemma common_run_spec (A B : list string) : common_run A B = common_prefix_length A B.
Proof.
  unfold common_run. rewrite common_run_fuel_spec by lia. reflexivity.
Qed.

(** The run found is the one characterised by: the sequences agree on
    their first [k] elements and differ at [k], if both go that far. *)
Lemma common_prefix_length_unique (A B : list string) (k : nat) :
  k <= List.length A -> k <= List.length B ->
  firstn k A = firstn k B ->
  (k < List.length A -> k < List.length B -> nth k A "" <> nth k B "") ->
  common_prefix_length A B = k.
Proof.
  revert B k. induction A as [|a A IH]; intros B k HA HB Hf Hd; simpl in *.
  - lia.
  - destruct B as [|b B]; simpl in *; [lia|].
    destruct k as [|k].
    + destruct (String.eqb_spec a b) as [->|]; [|reflexivity].
      exfalso. apply Hd; [lia | lia | reflexivity].
    + simpl in Hf. injection Hf as -> Hf. rewrite String.eqb_refl.
      f_equal. apply IH; [lia | lia | assumption |].
      intros H1 H2. apply Hd; lia.
Qed.

Lemma redraw_print_spec (A B : list string) :
  redraw_print A B
  = render (repeat Erase (List.length A - common_prefix_length A B)
            ++ map Print (skipn (common_prefix_length A B) B)).
Proof.
  unfold redraw_print, render. rewrite common_run_spec.
  rewrite !for_range_fold.
  rewrite (fold_append (fun _ => erase_seq)), (fold_append (fun j => nth j B "")).
  rewrite map_const_seq, map_nth_seq. simpl.
  rewrite map_app, join_app, map_map. simpl.
  f_equal.
  - generalize (List.length A - common_prefix_length A B). intros n.
    induction n as [|n IH]; simpl; [reflexivity | rewrite <- IH; reflexivity].
  - rewrite map_id. reflexivity.
Qed.

Lemma common_prefix_length_app (A C : list string) :
  common_prefix_length A (A ++ C) = List.length A.
Proof.
  induction A as [|a A IH]; simpl; [reflexivity|].
  rewrite String.eqb_refl, IH. reflexivity.
Qed.

(** C6: with [k] the length of the longest common leading run of the
    previous clusters [A] and the current clusters [B], a redraw step writes
    [length A - k] erase sequences and then the clusters of [B] from index [k]
    on, in order.  When [A] is a prefix of [B] it erases nothing and writes
    the [length B - length A] new clusters; when [A] and [B] have no common
    leading cluster it erases [length A] times and writes [B] in full. *)
Theorem redraw_emits :
  (forall (A B : list string) (k : nat),
     k <= List.length A -> k <= List.length B ->
     firstn k A = firstn k B ->
     (k < List.length A -> k < List.length B -> nth k A "" <> nth k B "") ->
     redraw_print A B
     = render (repeat Erase (List.length A - k) ++ map Print (skipn k B)))
  /\ (forall A C : list string,
        redraw_print A (A ++ C) = render (map Print C)
        /\ List.length C = List.length (A ++ C) - List.length A)
  /\ (forall A B : list string,
        A = [] \/ B = [] \/ hd "" A <> hd "" B ->
        redraw_print A B = render (repeat Erase (List.length A) ++ map Print B)).
Proof.
  split; [|split].
  - intros A B k HA HB Hf Hd. rewrite redraw_print_spec.
    rewrite (common_prefix_length_unique A B k HA HB Hf Hd). reflexivity.
  - intros A C. rewrite redraw_print_spec, common_prefix_length_app.
    rewrite Nat.sub_diag, skipn_app, skipn_all, Nat.sub_diag. simpl.
    split; [reflexivity|]. rewrite length_app. lia.
  - intros A B H. rewrite redraw_print_spec.
    assert (E : common_prefix_length A B = 0).
    { destruct A as [|a A]; [reflexivity|]. destruct B as [|b B]; [reflexivity|].
      simpl. destruct H as [H|[H|H]]; try discriminate.
      simpl in H. destruct (String.eqb_spec a b); [contradiction | reflexivity]. }
    rewrite E, Nat.sub_0_r. reflexivity.
Qed.

Lemma redraw_emits_witness :
  redraw_print ["h"; "e"; "y"] ["h"; "e"; "l"; "l"; "o"]
  = render [Erase; Print "l"; Print "l"; Print "o"].
Proof.
  apply (proj1 redraw_emits ["h"; "e"; "y"] ["h"; "e"; "l"; "l"; "o"] 2);
    simpl; try lia; try reflexivity.
  intros _ _. discriminate.
Defined.

(** ** [CountUTF8] *)

(** The masks of [CountUTF8] read the class of a byte, whatever the
    signedness of [char]. *)
Lemma band_tests (char_is_signed : bool) (c : ascii) :
  let n := nat_of_ascii c in
  (band char_is_signed c 0x80 =? 0x00)%Z = (n <? 128)%nat
  /\ (band char_is_signed c 0xE0 =? 0xC0)%Z = ((192 <=? n)%nat && (n <? 224)%nat)
  /\ (band char_is_signed c 0xF0 =? 0xE0)%Z = ((224 <=? n)%nat && (n <? 240)%nat)
  /\ (band char_is_signed c 0xF8 =? 0xF0)%Z = ((240 <=? n)%nat && (n <? 248)%nat)
  /\ (band char_is_signed c 0xC0 =? 0x80)%Z = is_continuation c.
Proof.
  destruct char_is_signed; destruct c as [[] [] [] [] [] [] [] []];
    vm_compute; repeat split.
Qed.

Lemma band_cont (sg : bool) (c : ascii) :
  (band sg c 0xC0 =? 0x80)%Z = is_continuation c.
Proof. apply (band_tests sg c). Qed.

Lemma class1_tests (sg : bool) (c : ascii) :
  utf8_class c = Some 1 -> (band sg c 0x80 =? 0x00)%Z = true.
Proof.
  destruct (band_tests sg c) as (H1 & _). rewrite H1. unfold utf8_class.
  destruct (nat_of_ascii c <? 128)%nat; [reflexivity|].
  repeat match goal with |- context [if ?b then _ else _] => destruct b end; discriminate.
Qed.

Lemma class2_tests (sg : bool) (c : ascii) :
  utf8_class c = Some 2 ->
  (band sg c 0x80 =? 0x00)%Z = false /\ (band sg c 0xE0 =? 0xC0)%Z = true.
Proof.
  destruct (band_tests sg c) as (H1 & H2 & _). rewrite H1, H2. unfold utf8_class.
  destruct (nat_of_ascii c <? 128)%nat; [discriminate|].
  destruct ((192 <=? nat_of_ascii c)%nat && (nat_of_ascii c <? 224)%nat); [auto|].
  repeat match goal with |- context [if ?b then _ else _] => destruct b end; discriminate.
Qed.

Lemma class3_tests (sg : bool) (c : ascii) :
  utf8_class c = Some 3 ->
  (band sg c 0x80 =? 0x00)%Z = false /\ (band sg c 0xE0 =? 0xC0)%Z = false
  /\ (band sg c 0xF0 =? 0xE0)%Z = true.
Proof.
  destruct (band_tests sg c) as (H1 & H2 & H3 & _). rewrite H1, H2, H3. unfold utf8_class.
  destruct (nat_of_ascii c <? 128)%nat; [discriminate|].
  destruct ((192 <=? nat_of_ascii c)%nat && (nat_of_ascii c <? 224)%nat); [discriminate|].
  destruct ((224 <=? nat_of_ascii c)%nat && (nat_of_ascii c <? 240)%nat); [auto|].
  repeat match goal with |- context [if ?b then _ else _] => destruct b end; discriminate.
Qed.

Lemma class4_tests (sg : bool) (c : ascii) :
  utf8_class c = Some 4 ->
  (band sg c 0x80 =? 0x00)%Z = false /\ (band sg c 0xE0 =? 0xC0)%Z = false
  /\ (band sg c 0xF0 =? 0xE0)%Z = false /\ (band sg c 0xF8 =? 0xF0)%Z = true.
Proof.
  destruct (band_tests sg c) as (H1 & H2 & H3 & H4 & _). rewrite H1, H2, H3, H4.
  unfold utf8_class.
  destruct (nat_of_ascii c <? 128)%nat; [discriminate|].
  destruct ((192 <=? nat_of_ascii c)%nat && (nat_of_ascii c <? 224)%nat); [discriminate|].
  destruct ((224 <=? nat_of_ascii c)%nat && (nat_of_ascii c <? 240)%nat); [discriminate|].
  destruct ((240 <=? nat_of_ascii c)%nat && (nat_of_ascii c <? 248)%nat); [auto|].
  discriminate.
Qed.

Lemma utf8_class_range (c : ascii) (n : nat) : utf8_class c = Some n -> 1 <= n <= 4.
Proof.
  unfold utf8_class.
  repeat match goal with |- context [if ?b then _ else _] => destruct b end;
    intros [= <-]; lia.
Qed.

Lemma CountUTF8_loop_S (sg : bool) (fuel : nat) (s : string) (pos : nat) (ret : list string) :
  CountUTF8_loop sg (S fuel) s pos ret =
  if (pos <? String.length s)%nat then
    if (band sg (at_ s pos) 0x80 =? 0x00)%Z then
      CountUTF8_loop sg fuel s (pos + 1) (ret ++ [substr s pos 1])%list
    else if (pos + 1 <? String.length s)%nat
            && (band sg (at_ s pos) 0xE0 =? 0xC0)%Z
            && (band sg (at_ s (pos + 1)) 0xC0 =? 0x80)%Z then
      CountUTF8_loop sg fuel s (pos + 2) (ret ++ [substr s pos 2])%list
    else if (pos + 1 <? String.length s)%nat
            && (band sg (at_ s pos) 0xF0 =? 0xE0)%Z
            && (band sg (at_ s (pos + 1)) 0xC0 =? 0x80)%Z
            && (band sg (at_ s (pos + 2)) 0xC0 =? 0x80)%Z then
      CountUTF8_loop sg fuel s (pos + 3) (ret ++ [substr s pos 3])%list
    else if (pos + 2 <? String.length s)%nat
            && (band sg (at_ s pos) 0xF8 =? 0xF0)%Z
            && (band sg (at_ s (pos + 1)) 0xC0 =? 0x80)%Z
            && (band sg (at_ s (pos + 2)) 0xC0 =? 0x80)%Z
            && (band sg (at_ s (pos + 3)) 0xC0 =? 0x80)%Z then
      CountUTF8_loop sg fuel s (pos + 4) (ret ++ [substr s pos 4])%list
    else Raise (FatalLog "Invalid UTF8 string")
  else Ret ret.
Proof. reflexivity. Qed.

Lemma CountUTF8_loop_end (sg : bool) (fuel : nat) (s : string) (pos : nat) (ret : list string) :
  String.length s <= pos -> CountUTF8_loop sg fuel s pos ret = Ret ret.
Proof.
  intros H. destruct fuel; simpl; destruct (Nat.ltb_spec pos (String.length s)); auto; lia.
Qed.

(** One round on a well-formed sequence [q] at the position where it starts:
    [q] is pushed and the position moves past it. *)
Lemma CountUTF8_loop_step (sg : bool) (fuel : nat) (p q t : string) (ret : list string) :
  well_formed_seq q = true ->
  CountUTF8_loop sg (S fuel) (p ++ q ++ t) (String.length p) ret
  = CountUTF8_loop sg fuel (p ++ q ++ t) (String.length p + String.length q)
      (ret ++ [q])%list
    /\ cluster_matches_lead q.
Proof.
  intros Hwf.
  assert (Hlen : String.length (p ++ q ++ t)
                 = String.length p + (String.length q + String.length t))
    by (rewrite !length_append; reflexivity).
  assert (Hat : forall k, at_ (p ++ q ++ t) (String.length p + k) = at_ (q ++ t) k)
    by (intros k; apply at_append).
  assert (Hat0 : at_ (p ++ q ++ t) (String.length p) = at_ (q ++ t) 0)
    by (rewrite <- (Hat 0), Nat.add_0_r; reflexivity).
  assert (Hsub : substr (p ++ q ++ t) (String.length p) (String.length q) = q)
    by (unfold substr; rewrite substring_append; apply substring_whole).
  rewrite CountUTF8_loop_S, Hlen, Hat0, !Hat.
  unfold cluster_matches_lead.
  destruct q as [|lead rest]; [discriminate|].
  unfold well_formed_seq in Hwf.
  destruct (utf8_class lead) as [n|] eqn:Hc; [|discriminate].
  apply andb_true_iff in Hwf. destruct Hwf as [Hn Hrest].
  apply Nat.eqb_eq in Hn.
  pose proof (utf8_class_range lead n Hc) as Hr.
  rewrite <- Hn in Hc.
  destruct rest as [|c1 rest]; simpl in Hn, Hrest, Hsub |- *.
  { (* one byte *)
    subst n. unfold at_; simpl. rewrite Hsub, (class1_tests sg lead Hc).
    destruct (Nat.ltb_spec (String.length p) (String.length p + S (String.length t)));
      [auto | lia]. }
  apply andb_true_iff in Hrest. destruct Hrest as [Hc1 Hrest].
  destruct rest as [|c2 rest]; simpl in Hn, Hrest, Hsub |- *.
  { (* two bytes *)
    subst n. unfold at_; simpl. destruct (class2_tests sg lead Hc) as (E1 & E2).
    rewrite E1, E2, band_cont, Hc1, Hsub.
    destruct (Nat.ltb_spec (String.length p) (String.length p + S (S (String.length t))));
      [|lia].
    destruct (Nat.ltb_spec (String.length p + 1)
                (String.length p + S (S (String.length t)))); [|lia].
    simpl. auto. }
  apply andb_true_iff in Hrest. destruct Hrest as [Hc2 Hrest].
  destruct rest as [|c3 rest]; simpl in Hn, Hrest, Hsub |- *.
  { (* three bytes *)
    subst n. unfold at_; simpl. destruct (class3_tests sg lead Hc) as (E1 & E2 & E3).
    rewrite E1, E2, E3, !band_cont, Hc1, Hc2, Hsub.
    destruct (Nat.ltb_spec (String.length p)
                (String.length p + S (S (S (String.length t))))); [|lia].
    destruct (Nat.ltb_spec (String.length p + 1)
                (String.length p + S (S (S (String.length t))))); [|lia].
    simpl. auto. }
  apply andb_true_iff in Hrest. destruct Hrest as [Hc3 Hrest].
  destruct rest as [|c4 rest]; simpl in Hn, Hrest, Hsub |- *.
  { (* four bytes *)
    subst n. unfold at_; simpl.
    destruct (class4_tests sg lead Hc) as (E1 & E2 & E3 & E4).
    rewrite E1, E2, E3, E4, !band_cont, Hc1, Hc2, Hc3, Hsub.
    destruct (Nat.ltb_spec (String.length p)
                (String.length p + S (S (S (S (String.length t)))))); [|lia].
    destruct (Nat.ltb_spec (String.length p + 1)
                (String.length p + S (S (S (S (String.length t)))))); [|lia].
    destruct (Nat.ltb_spec (String.length p + 2)
                (String.length p + S (S (S (S (String.length t)))))); [|lia].
    simpl. auto. }
  lia.
Qed.

Lemma CountUTF8_loop_wf (sg : bool) (seqs : list string) :
  forall (p : string) (fuel : nat) (ret : list string),
    Forall (fun q => well_formed_seq q = true) seqs ->
    List.length seqs <= fuel ->
    CountUTF8_loop sg fuel (p ++ join seqs) (String.length p) ret = Ret (ret ++ seqs)%list.
Proof.
  induction seqs as [|q seqs IH]; intros p fuel ret Hwf Hfuel.
  - rewrite app_nil_r. apply CountUTF8_loop_end. simpl. rewrite append_nil_r. lia.
  - inversion Hwf as [|q' l' Hq Hseqs]; subst.
    destruct fuel as [|fuel]; [simpl in Hfuel; lia|].
    cbn [join fold_right]. fold (join seqs).
    destruct (CountUTF8_loop_step sg fuel p q (join seqs) ret Hq) as [-> _].
    rewrite <- append_assoc, <- length_append.
    rewrite IH; [|assumption|simpl in Hfuel; lia].
    rewrite <- app_assoc. reflexivity.
Qed.

Lemma well_formed_seqs_length (seqs : list string) :
  Forall (fun q => well_formed_seq q = true) seqs ->
  List.length seqs <= String.length (join seqs).
Proof.
  induction 1 as [|q l Hq _ IH]; simpl; [lia|].
  rewrite length_append. destruct q; [discriminate|]. simpl. lia.
Qed.

Lemma well_formed_matches_lead (q : string) :
  well_formed_seq q = true -> cluster_matches_lead q.
Proof.
  intros H. apply (CountUTF8_loop_step true 0 "" q "" [] H).
Qed.

(** C5: on a byte string made of well-formed UTF-8 sequences of one to
    four bytes, [CountUTF8] returns; the clusters returned, one after the
    other, are the byte string; and the length of each cluster is the one its
    lead byte announces.  The clusters are the sequences themselves. *)
Theorem CountUTF8_well_formed (char_is_signed : bool) (seqs : list string) :
  Forall (fun q => well_formed_seq q = true) seqs ->
  exists clusters,
    CountUTF8 char_is_signed (join seqs) = Ret clusters
    /\ join clusters = join seqs
    /\ Forall cluster_matches_lead clusters
    /\ clusters = seqs.
Proof.
  intros Hwf. exists seqs. split; [|split; [reflexivity|split; [|reflexivity]]].
  - unfold CountUTF8.
    apply (CountUTF8_loop_wf char_is_signed seqs "" _ [] Hwf).
    apply well_formed_seqs_length, Hwf.
  - eapply Forall_impl; [|exact Hwf]. exact well_formed_matches_lead.
Qed.

Lemma CountUTF8_well_formed_witness :
  exists clusters,
    CountUTF8 true (join utf8_sample) = Ret clusters
    /\ join clusters = join utf8_sample
    /\ Forall cluster_matches_lead clusters
    /\ clusters = utf8_sample.
Proof.
  apply (CountUTF8_well_formed true utf8_sample).
  repeat constructor.
Defined.

(** ** The artifact search *)

Lemma resolution_fails_exit (fs : FileSystem) (os : OS)
    (artifact_path device_name arch_suffix id : string) :
  resolution_fails fs os artifact_path device_name arch_suffix id ->
  run_res (f_search_model_path fs os artifact_path device_name arch_suffix [id])
  = ExitProcess 1
  /\ String.prefix "Cannot find "
       (run_err (f_search_model_path fs os artifact_path device_name arch_suffix [id]))
     = true.
Proof.
  intros [Hc | cfg lid dir Hc Hd Hl | cfg lid dir lib Hc Hd Hl Hp];
    unfold f_search_model_path; rewrite Hc; [split; reflexivity | |];
    rewrite Hd, Hl; [split; reflexivity|].
  rewrite Hp. split; reflexivity.
Qed.

(** *** The library directory, for model paths of seven characters or more *)

Lemma before_last_slash_app (p r : string) :
  before_last_slash r = None ->
  before_last_slash (p ++ String "/" r) = Some p.
Proof.
  intros Hr. induction p as [|c p IH]; simpl.
  - rewrite Hr. reflexivity.
  - simpl in IH. rewrite IH. reflexivity.
Qed.

Lemma filename_app (p r : string) :
  before_last_slash r = None -> filename (p ++ String "/" r) = r.
Proof.
  intros Hr. induction p as [|c p IH]; simpl.
  - rewrite Hr. reflexivity.
  - pose proof (before_last_slash_app p r Hr) as H. simpl in H, IH.
    rewrite H. exact IH.
Qed.

Lemma filename_no_slash (s : string) : before_last_slash (filename s) = None.
Proof.
  induction s as [|c r IH]; simpl; [reflexivity|].
  destruct (before_last_slash r) eqn:E; [exact IH|].
  destruct (is_slash c) eqn:Hc; [exact E|].
  simpl. rewrite E, Hc. reflexivity.
Qed.

Lemma filename_split (s : string) :
  s = filename s \/ exists p, s = p ++ String "/" (filename s).
Proof.
  induction s as [|c r IH]; simpl; [left; reflexivity|].
  destruct (before_last_slash r) eqn:E.
  - right. destruct IH as [IH | [p IH]].
    + rewrite IH, filename_no_slash in E. discriminate.
    + exists (String c p). simpl. rewrite <- IH. reflexivity.
  - destruct (is_slash c) eqn:Hc; [|left; reflexivity].
    right. exists EmptyString. simpl. unfold is_slash in Hc.
    apply Ascii.eqb_eq in Hc. rewrite Hc. reflexivity.
Qed.

Lemma substring_split (s : string) (n : nat) :
  n <= String.length s ->
  s = substring 0 n s ++ substring n (String.length s - n) s.
Proof.
  revert n. induction s as [|c r IH]; intros n Hn; simpl in *.
  - destruct n; reflexivity.
  - destruct n as [|n]; simpl.
    + f_equal. specialize (IH 0 (Nat.le_0_l _)).
      rewrite Nat.sub_0_r in IH.
      assert (E : substring 0 0 r = "") by (destruct r; reflexivity).
      rewrite E in IH. simpl in IH. exact IH.
    + f_equal. apply IH. lia.
Qed.

Lemma ends_with_params_iff (s : string) :
  7 <= String.length s ->
  (substring (String.length s - 7) 7 s =? "/params") = (filename s =? "params").
Proof.
  intros Hlen.
  destruct (String.eqb_spec (substring (String.length s - 7) 7 s) "/params") as [E|E].
  - symmetry. apply String.eqb_eq.
    pose proof (substring_split s (String.length s - 7)) as Hs.
    replace (String.length s - (String.length s - 7)) with 7 in Hs by lia.
    rewrite E in Hs. rewrite Hs by lia. apply (filename_app _ "params"). reflexivity.
  - symmetry. apply String.eqb_neq. intros Hf. apply E.
    destruct (filename_split s) as [Hs | [p Hs]]; rewrite Hf in Hs.
    + rewrite Hs in Hlen. simpl in Hlen. lia.
    + rewrite Hs, length_append. simpl String.length.
      replace (String.length p + 7 - 7) with (String.length p) by lia.
      rewrite substring_append. reflexivity.
Qed.

(** For a model path of at least seven characters the library is looked
    for in the parent directory when the last component is [params], and in
    [lib] under the parent directory otherwise. *)
Lemma lib_dir_path_long (model_path : string) :
  7 <= String.length model_path ->
  (Z.of_nat (String.length model_path) < size_t_max)%Z ->
  lib_dir_path model_path
  = Ret (if filename model_path =? "params" then parent_path model_path
         else parent_path model_path ++ "/lib").
Proof.
  intros Hlen Hmax. unfold lib_dir_path, compare_params, to_size_t.
  rewrite Z.mod_small by lia.
  destruct (Z.gtb_spec (Z.of_nat (String.length model_path) - 7)
              (Z.of_nat (String.length model_path))); [lia|].
  replace (Z.to_nat (Z.of_nat (String.length model_path) - 7))
    with (String.length model_path - 7) by lia.
  simpl. rewrite ends_with_params_iff by assumption.
  destruct (filename model_path =? "params"); reflexivity.
Qed.

(** The names tried for the library: the identifier and the device name
    joined by a hyphen, then this name with the architecture suffix. *)
Lemma lib_candidates_names (device_name arch_suffix local_id : string) :
  lib_candidates device_name arch_suffix local_id
  = [local_id ++ "-" ++ device_name; (local_id ++ "-" ++ device_name) ++ arch_suffix].
Proof. reflexivity. Qed.

(** *** Paths under a directory *)

Lemma append_not_empty (a b : string) : b <> "" -> (a ++ b =? "") = false.
Proof.
  intros Hb. apply String.eqb_neq. destruct a; simpl; [exact Hb | discriminate].
Qed.

Lemma strip_trailing_slashes_app (a b : string) :
  strip_trailing_slashes b = b -> b <> "" ->
  strip_trailing_slashes (a ++ b) = a ++ b.
Proof.
  intros Hb Hne. induction a as [|c a IH]; simpl; [exact Hb|].
  rewrite IH, (append_not_empty a b Hne), andb_false_r. reflexivity.
Qed.

Lemma before_last_slash_in (a b d : string) :
  before_last_slash b = Some d -> before_last_slash (a ++ b) = Some (a ++ d).
Proof.
  intros Hb. induction a as [|c a IH]; simpl; [exact Hb | rewrite IH; reflexivity].
Qed.

Lemma parent_path_app (a b d : string) :
  before_last_slash b = Some d ->
  strip_trailing_slashes d = d ->
  d <> "" ->
  parent_path (a ++ b) = a ++ d.
Proof.
  intros Hb Hd Hne. unfold parent_path.
  rewrite (before_last_slash_in a b d Hb), (strip_trailing_slashes_app a d Hd Hne).
  rewrite (append_not_empty a d Hne). reflexivity.
Qed.

Lemma filename_app_slash (a b : string) :
  before_last_slash b <> None -> filename (a ++ b) = filename b.
Proof.
  intros Hb. induction a as [|c a IH]; simpl; [reflexivity|].
  destruct (before_last_slash b) as [d|] eqn:E; [|contradiction].
  rewrite (before_last_slash_in a b d E). exact IH.
Qed.

(** *** Probes in a file system without links *)

Lemma in_list_In (p : string) (l : list string) : In p l -> in_list p l = true.
Proof.
  intros H. unfold in_list. apply existsb_exists. exists p.
  split; [exact H | apply String.eqb_refl].
Qed.

Lemma absolute_abs (cwd s : string) :
  String.prefix "/" cwd = true -> absolute cwd (cwd ++ s) = cwd ++ s.
Proof.
  intros H. unfold absolute. destruct cwd as [|c r]; [discriminate|].
  cbn [String.append String.prefix] in *.
  destruct (ascii_dec "/" c); [|discriminate].
  assert (E : String.prefix "" (r ++ s) = true) by (destruct (r ++ s); reflexivity).
  rewrite E. reflexivity.
Qed.

Lemma absolute_idem (cwd p : string) :
  String.prefix "/" cwd = true -> absolute cwd (absolute cwd p) = absolute cwd p.
Proof.
  intros H. unfold absolute at 2. unfold absolute at 2.
  destruct (String.prefix "/" p) eqn:E.
  - unfold absolute. rewrite E. reflexivity.
  - apply absolute_abs, H.
Qed.

Lemma probe_simple_fs_file (cwd : string) (files dirs : list string) (p : string) :
  String.prefix "/" cwd = true ->
  In (absolute cwd p) files ->
  probe (simple_fs cwd files dirs) p = Some (absolute cwd p).
Proof.
  intros Habs Hin. unfold probe, simple_fs. cbn [fs_exists fs_canonical fs_is_regular_file].
  rewrite (in_list_In _ (files ++ dirs)%list) by (apply in_or_app; left; exact Hin).
  rewrite (absolute_idem cwd p Habs), (in_list_In _ files Hin). reflexivity.
Qed.

Lemma FindFile_first_probe (fs : FileSystem) (dir name suffix : string)
    (dirs names suffixes : list string) (found : string) :
  probe fs (dir ++ "/" ++ name ++ suffix) = Some found ->
  FindFile fs (dir :: dirs) (name :: names) (suffix :: suffixes) = Some found.
Proof.
  intros H. unfold FindFile. cbn [FindFile_trace FindFile_names FindFile_suffixes].
  rewrite H. reflexivity.
Qed.

(** C2, as stated, fails: with the library under [lib/] the three files
    are there, and the search for the library, made in the parent of
    [params], ends the process. *)
Lemma lib_subdir_not_searched :
  probe fs_lib_subdir "dist/foo-q4f16_0/params/mlc-chat-config.json"
  = Some "/home/user/mlc-llm/dist/foo-q4f16_0/params/mlc-chat-config.json"
  /\ probe fs_lib_subdir "dist/foo-q4f16_0/params/ndarray-cache.json"
     = Some "/home/user/mlc-llm/dist/foo-q4f16_0/params/ndarray-cache.json"
  /\ probe fs_lib_subdir "dist/foo-q4f16_0/lib/foo-q4f16_0-cuda.so"
     = Some "/home/user/mlc-llm/dist/foo-q4f16_0/lib/foo-q4f16_0-cuda.so"
  /\ f_search_model_path fs_lib_subdir OtherOS "dist" "cuda" (GetArchSuffix X86_64)
       ["foo-q4f16_0"]
     = mkRun
         ("Use config /home/user/mlc-llm/dist/foo-q4f16_0/params/mlc-chat-config.json"
          ++ endl)
         ("Cannot find library " ++ dq ++ "foo-q4f16_0-cuda.so" ++ dq
          ++ " and other library candidate in /home/user/mlc-llm/dist/foo-q4f16_0" ++ endl)
         (ExitProcess 1).
Proof. repeat split; vm_compute; reflexivity. Qed.

(** C2, amended: with artifact root [dist], candidate [foo-q4f16_0] and
    device [cuda], when exactly [dist/foo-q4f16_0/params/mlc-chat-config.json],
    [dist/foo-q4f16_0/params/ndarray-cache.json] and the library
    [dist/foo-q4f16_0/foo-q4f16_0-cuda.so], next to [params], are regular
    files, the search returns the canonical path of that library and the
    canonical path of [dist/foo-q4f16_0/params], the directory of both other
    files, and reports the canonical path of the configuration file.  This
    holds under every current directory [cwd] and for every architecture
    suffix. *)
Theorem search_finds_sibling_library (cwd : string) (arch : Arch) :
  String.prefix "/" cwd = true ->
  (Z.of_nat (String.length cwd) + 27 < size_t_max)%Z ->
  f_search_model_path (fs_sibling_in cwd) OtherOS "dist" "cuda" (GetArchSuffix arch)
    ["foo-q4f16_0"]
  = mkRun
      ("Use config " ++ (cwd ++ "/dist/foo-q4f16_0/params/mlc-chat-config.json") ++ endl
       ++ "Use lib " ++ (cwd ++ "/dist/foo-q4f16_0/foo-q4f16_0-cuda.so") ++ endl)
      ""
      (Ret (cwd ++ "/dist/foo-q4f16_0/foo-q4f16_0-cuda.so",
            cwd ++ "/dist/foo-q4f16_0/params"))
  /\ FindFile (fs_sibling_in cwd) [cwd ++ "/dist/foo-q4f16_0/params"]
       ["ndarray-cache"] [".json"]
     = Some (cwd ++ "/dist/foo-q4f16_0/params/ndarray-cache.json").
Proof.
  intros Habs Hlen.
  assert (Hcfg : search_config (fs_sibling_in cwd) "dist" ["foo-q4f16_0"]
                 = Some (cwd ++ "/dist/foo-q4f16_0/params/mlc-chat-config.json",
                         "foo-q4f16_0")).
  { unfold search_config.
    rewrite (FindFile_first_probe _ _ _ _ _ _ _
               (cwd ++ "/dist/foo-q4f16_0/params/mlc-chat-config.json"));
      [reflexivity|].
    apply (probe_simple_fs_file cwd _ _ "dist/foo-q4f16_0/params/mlc-chat-config.json");
      [exact Habs | simpl; auto]. }
  assert (Hmp : parent_path (cwd ++ "/dist/foo-q4f16_0/params/mlc-chat-config.json")
                = cwd ++ "/dist/foo-q4f16_0/params").
  { apply parent_path_app; [reflexivity | reflexivity | discriminate]. }
  assert (Hdir : lib_dir_path (cwd ++ "/dist/foo-q4f16_0/params")
                 = Ret (cwd ++ "/dist/foo-q4f16_0")).
  { rewrite lib_dir_path_long.
    - rewrite (filename_app_slash cwd "/dist/foo-q4f16_0/params") by discriminate.
      cbn [filename before_last_slash is_slash Ascii.eqb Bool.eqb String.eqb].
      f_equal. apply parent_path_app; [reflexivity | reflexivity | discriminate].
    - rewrite length_append. simpl. lia.
    - rewrite length_append. simpl String.length. lia. }
  assert (Hlib : FindFile (fs_sibling_in cwd) [cwd ++ "/dist/foo-q4f16_0"]
                   (lib_candidates "cuda" (GetArchSuffix arch) "foo-q4f16_0")
                   (GetLibSuffixes OtherOS)
                 = Some (cwd ++ "/dist/foo-q4f16_0/foo-q4f16_0-cuda.so")).
  { apply FindFile_first_probe.
    replace ((cwd ++ "/dist/foo-q4f16_0") ++ "/" ++ lib_name "cuda" "foo-q4f16_0" ++ ".so")
      with (cwd ++ "/dist/foo-q4f16_0/foo-q4f16_0-cuda.so")
      by (rewrite append_assoc; reflexivity).
    rewrite <- (absolute_abs cwd "/dist/foo-q4f16_0/foo-q4f16_0-cuda.so" Habs) at 2.
    apply probe_simple_fs_file; [exact Habs|].
    rewrite (absolute_abs cwd _ Habs). simpl; auto. }
  assert (Hpar : FindFile (fs_sibling_in cwd) [cwd ++ "/dist/foo-q4f16_0/params"]
                   ["ndarray-cache"] [".json"]
                 = Some (cwd ++ "/dist/foo-q4f16_0/params/ndarray-cache.json")).
  { apply FindFile_first_probe.
    replace ((cwd ++ "/dist/foo-q4f16_0/params") ++ "/" ++ "ndarray-cache" ++ ".json")
      with (cwd ++ "/dist/foo-q4f16_0/params/ndarray-cache.json")
      by (rewrite append_assoc; reflexivity).
    rewrite <- (absolute_abs cwd "/dist/foo-q4f16_0/params/ndarray-cache.json" Habs) at 2.
    apply probe_simple_fs_file; [exact Habs|].
    rewrite (absolute_abs cwd _ Habs). simpl; auto. }
  split; [|exact Hpar].
  unfold f_search_model_path. rewrite Hcfg, Hmp, Hdir, Hlib, Hpar.
  rewrite !append_assoc. reflexivity.
Qed.

Lemma search_finds_sibling_library_witness :
  f_search_model_path fs_lib_sibling OtherOS "dist" "cuda" (GetArchSuffix X86_64)
    ["foo-q4f16_0"]
  = mkRun
      ("Use config /home/user/mlc-llm/dist/foo-q4f16_0/params/mlc-chat-config.json"
       ++ endl
       ++ "Use lib /home/user/mlc-llm/dist/foo-q4f16_0/foo-q4f16_0-cuda.so" ++ endl)
      ""
      (Ret ("/home/user/mlc-llm/dist/foo-q4f16_0/foo-q4f16_0-cuda.so",
            "/home/user/mlc-llm/dist/foo-q4f16_0/params"))
  /\ FindFile fs_lib_sibling ["/home/user/mlc-llm/dist/foo-q4f16_0/params"]
       ["ndarray-cache"] [".json"]
     = Some "/home/user/mlc-llm/dist/foo-q4f16_0/params/ndarray-cache.json".
Proof.
  apply (search_finds_sibling_library "/home/user/mlc-llm" X86_64).
  - reflexivity.
  - vm_compute. reflexivity.
Defined.

(** C8 at a model path shorter than seven characters: the configuration
    file is found at [/data/mlc-chat-config.json], the model path [/data] does
    not end in [params], the directory [parent/lib] holds the library, and the
    position [length - 7] of the comparison wraps around: [compare] throws
    and no library is looked for. *)
Lemma short_model_path_throws :
  search_config fs_linked_model "dist" ["foo-q4f16_0"]
  = Some ("/data/mlc-chat-config.json", "foo-q4f16_0")
  /\ parent_path "/data/mlc-chat-config.json" = "/data"
  /\ (filename "/data" =? "params") = false
  /\ FindFile fs_linked_model [parent_path "/data" ++ "/lib"]
       (lib_candidates "cuda" (GetArchSuffix X86_64) "foo-q4f16_0") (GetLibSuffixes OtherOS)
     = Some "/lib/foo-q4f16_0-cuda.so"
  /\ lib_dir_path "/data" = Raise OutOfRange
  /\ run_res (f_search_model_path fs_linked_model OtherOS "dist" "cuda"
                (GetArchSuffix X86_64) ["foo-q4f16_0"])
     = Raise OutOfRange.
Proof. repeat split; vm_compute; reflexivity. Qed.

(** ** The [/reload] command *)

Section ReloadFacts.
Variable char_is_signed : bool.
Variable rt : Runtime.
Variable f_search_model_path : list string -> Run (string * string).
Variable stream_interval : Z.

(** A [/reload] without identifier that returns has called [reload] on the
    current [executable] and [model_path], and assigned no variable. *)
Lemma Chat_reload_same_inv (l l' : Locals rt) (w w' : World rt) :
  Chat_reload rt f_search_model_path l "" w = (w', Ret l') ->
  exists m,
    rt_reload rt (executable l) (model_path l) (chat_mod w) = Ret m
    /\ w' = mkWorld m (cout w ++ "RELOAD THE SAME MODEL SUCCESS" ++ endl) (cerr w)
    /\ l' = l.
Proof.
  unfold Chat_reload, mbind, try_tell, print, mret. simpl.
  destruct (rt_reload rt (executable l) (model_path l) (chat_mod w)) as [m| | |] eqn:Hr;
    try discriminate.
  simpl. intros [= <- <-]. exists m. auto.
Qed.

(** A [/reload] with an identifier that returns has resolved it, loaded the
    library found, called [reload] on it and the model path found, and read
    the role names afterwards. *)
Lemma Chat_reload_id_inv (l l' : Locals rt) (w w' : World rt) (id : string) :
  id <> "" ->
  Chat_reload rt f_search_model_path l id w = (w', Ret l') ->
  exists lib_path path exe m,
    run_res (f_search_model_path [id]) = Ret (lib_path, path)
    /\ LoadFromFile rt lib_path = Ret exe
    /\ rt_reload rt exe path (chat_mod w) = Ret m
    /\ chat_mod w' = m
    /\ l' = mkLocals exe path (rt_get_role0 rt m) (rt_get_role1 rt m).
Proof.
  intros Hid. unfold Chat_reload.
  destruct (String.eqb_spec id ""); [contradiction|].
  unfold mbind, lift_run, lift, try_tell, ask, print, mret. simpl.
  destruct (run_res (f_search_model_path [id])) as [[lib_path path]| | |] eqn:Hs;
    try discriminate.
  destruct (LoadFromFile rt lib_path) as [exe| | |] eqn:Hl; try discriminate.
  simpl. destruct (rt_reload rt exe path (chat_mod w)) as [m| | |] eqn:Hr;
    try discriminate.
  simpl. intros [= <- <-]. exists lib_path, path, exe, m. simpl. auto.
Qed.

Lemma Chat_body_reload_inv (fuel : nat) (l l' : Locals rt) (w w' : World rt)
    (inp id : string) :
  classify inp = Reload id ->
  Chat_body char_is_signed rt f_search_model_path stream_interval fuel l inp w = (w', Ret (Continue l')) ->
  Chat_reload rt f_search_model_path l id w = (w', Ret l').
Proof.
  unfold Chat_body. intros ->. unfold mbind, mret.
  destruct (Chat_reload rt f_search_model_path l id w) as [w1 [l1| | |]];
    try discriminate.
  intros [= <- <-]. reflexivity.
Qed.

(** A round that goes on assigns the variables of [Chat] only on a
    [/reload] with an identifier. *)
Lemma Chat_body_keeps_model (fuel : nat) (l l' : Locals rt) (w w' : World rt)
    (inp : string) :
  keeps_model inp = true ->
  Chat_body char_is_signed rt f_search_model_path stream_interval fuel l inp w = (w', Ret (Continue l')) ->
  l' = l.
Proof.
  unfold keeps_model, Chat_body.
  destruct (classify inp) as [|id| | | |text]; intros Hk.
  - unfold mbind, tell, print, mret. simpl. intros [= _ <-]. reflexivity.
  - apply String.eqb_eq in Hk. subst id. unfold mbind, mret.
    destruct (Chat_reload rt f_search_model_path l "" w) as [w1 [l1| | |]] eqn:E;
      try discriminate.
    intros [= <- <-]. destruct (Chat_reload_same_inv l l1 w w1 E) as (m & _ & _ & H).
    exact H.
  - unfold mret. discriminate.
  - unfold mbind, ask, print, mret. simpl. intros [= _ <-]. reflexivity.
  - unfold mbind, print, mret. simpl. intros [= _ <-]. reflexivity.
  - unfold mbind, lift, print, tell, mret. simpl.
    match goal with
    | |- context [generate ?a ?b ?c ?d ?e ?f ?g] =>
        destruct (generate a b c d e f g) as [w1 [[]| | |]]; try discriminate
    end.
    intros [= _ <-]. reflexivity.
Qed.

Lemma session_run_keeps_model (fuel : nat) (l l' : Locals rt) (w w' : World rt)
    (cin : list string) :
  session_run char_is_signed rt f_search_model_path stream_interval fuel l w cin l' w' ->
  forallb keeps_model cin = true ->
  l' = l.
Proof.
  induction 1 as [|l l1 l2 w w1 w2 inp cin Hstep Hrun IH]; [reflexivity|].
  simpl. intros Hk. apply andb_true_iff in Hk. destruct Hk as [Hinp Hcin].
  rewrite (IH Hcin).
  unfold mbind, print in Hstep. simpl in Hstep.
  destruct (Chat_body _ _ _ _ _ _ _ _) as [w0 [ctl| | |]] eqn:E in Hstep;
    try discriminate.
  injection Hstep as <- ->.
  eapply Chat_body_keeps_model; eassumption.
Qed.
End ReloadFacts.

(** C1, as stated, fails: a [/reload] of an identifier without
    configuration file ends the process with code 1 after the diagnostic; the
    line that follows is never read.  Without the failing line the same
    session answers it. *)
Lemma failed_reload_ends_session :
  Chat true echo_rt sibling_search 2 10 "startup-lib.so" "/startup/params"
    ["/reload nosuch"; "hello"] echo_start
  = (@mkWorld echo_rt (mkEcho "startup-lib.so" "/startup/params" 1 "" [])
       "USER: "
       ("Cannot find " ++ dq ++ "mlc-chat-config.json" ++ dq ++ " in path " ++ dq
        ++ "dist/nosuch/params/" ++ dq ++ ", " ++ dq ++ "dist/prebuilt/nosuch" ++ dq
        ++ " or other candidate paths."),
     ExitProcess 1)
  /\ Chat true echo_rt sibling_search 2 10 "startup-lib.so" "/startup/params"
       ["hello"] echo_start
     = (@mkWorld echo_rt
          (mkEcho "startup-lib.so" "/startup/params" 1 "You said: hello" [])
          ("USER: ASSISTANT: You said: hello" ++ endl ++ "USER: ") "",
        Ret tt).
Proof. split; vm_compute; reflexivity. Qed.

(** C1, amended: an in-session [/reload <id>] whose resolution fails (no
    configuration file, no library or no parameter cache is found for the
    identifier) writes its diagnostic to the error stream and ends the process
    with exit code 1; the chat module is not touched and no further line is
    read. *)
Theorem reload_failure_exits (char_is_signed : bool) (rt : Runtime)
    (fs : FileSystem) (os : OS) (artifact_path device_name arch_suffix : string)
    (stream_interval : Z) (fuel : nat) (l : Locals rt) (w : World rt)
    (inp id : string) (cin : list string) :
  classify inp = Reload id ->
  id <> "" ->
  resolution_fails fs os artifact_path device_name arch_suffix id ->
  Chat_loop char_is_signed rt
    (f_search_model_path fs os artifact_path device_name arch_suffix)
    stream_interval fuel l (inp :: cin) w
  = (mkWorld (chat_mod w)
       ((cout w ++ role0 l ++ ": ")
        ++ run_out (f_search_model_path fs os artifact_path device_name arch_suffix [id]))
       (cerr w
        ++ run_err (f_search_model_path fs os artifact_path device_name arch_suffix [id])),
     ExitProcess 1)
  /\ String.prefix "Cannot find "
       (run_err (f_search_model_path fs os artifact_path device_name arch_suffix [id]))
     = true.
Proof.
  intros Hc Hid Hfail.
  destruct (resolution_fails_exit fs os artifact_path device_name arch_suffix id Hfail)
    as [Hres Herr].
  split; [|exact Herr].
  cbn [Chat_loop]. unfold mbind at 1. unfold print at 1.
  unfold mbind at 1. unfold Chat_body. rewrite Hc.
  unfold mbind at 1. unfold Chat_reload.
  destruct (String.eqb_spec id ""); [contradiction|].
  unfold mbind at 1. unfold lift_run. cbn [chat_mod cout cerr]. rewrite Hres.
  reflexivity.
Qed.

Lemma reload_failure_exits_witness :
  Chat_loop true echo_rt sibling_search 2 10 echo_locals ["/reload nosuch"; "hello"]
    echo_loaded
  = (mkWorld (chat_mod echo_loaded)
       ((cout echo_loaded ++ role0 echo_locals ++ ": ")
        ++ run_out (sibling_search ["nosuch"]))
       (cerr echo_loaded ++ run_err (sibling_search ["nosuch"])),
     ExitProcess 1)
  /\ String.prefix "Cannot find " (run_err (sibling_search ["nosuch"])) = true.
Proof.
  apply (reload_failure_exits true echo_rt fs_lib_sibling OtherOS "dist" "cuda"
           (GetArchSuffix X86_64) 2 10 echo_locals echo_loaded
           "/reload nosuch" "nosuch" ["hello"]).
  - reflexivity.
  - discriminate.
  - apply no_config. reflexivity.
Defined.

(** C3, as stated, fails for a [/reload] without identifier: the chat
    module, reloaded, names its roles [HUMAN] and [BOT], and the loop goes on
    with [USER], as the next prompt shows. *)
Lemma plain_reload_keeps_roles :
  Chat_body true echo_rt sibling_search 2 10 echo_locals "/reload" echo_loaded
  = (@mkWorld echo_rt (mkEcho "startup-lib.so" "/startup/params" 2 "" [])
       ("RELOAD THE SAME MODEL SUCCESS" ++ endl) "",
     Ret (Continue echo_locals))
  /\ role0 echo_locals = "USER"
  /\ role1 echo_locals = "ASSISTANT"
  /\ rt_get_role0 echo_rt (mkEcho "startup-lib.so" "/startup/params" 2 "" []) = "HUMAN"
  /\ rt_get_role1 echo_rt (mkEcho "startup-lib.so" "/startup/params" 2 "" []) = "BOT"
  /\ cout (fst (Chat true echo_rt sibling_search 2 10 "startup-lib.so" "/startup/params"
                  ["/reload"] echo_start))
     = "USER: RELOAD THE SAME MODEL SUCCESS" ++ endl ++ "USER: ".
Proof. repeat split; vm_compute; reflexivity. Qed.

(** C3, amended: after every successful [/reload <id>] the role names of
    the session are the ones the chat module gives, read after the reload; a
    successful [/reload] without identifier leaves both role names as they
    were. *)
Theorem roles_after_reload (char_is_signed : bool) (rt : Runtime)
    (f_search_model_path : list string -> Run (string * string))
    (stream_interval : Z) (fuel : nat) (l l' : Locals rt) (w w' : World rt)
    (inp id : string) :
  classify inp = Reload id ->
  Chat_body char_is_signed rt f_search_model_path stream_interval fuel l inp w
  = (w', Ret (Continue l')) ->
  (id <> "" ->
   role0 l' = rt_get_role0 rt (chat_mod w') /\ role1 l' = rt_get_role1 rt (chat_mod w'))
  /\ (id = "" -> role0 l' = role0 l /\ role1 l' = role1 l).
Proof.
  intros Hc Hbody.
  pose proof (Chat_body_reload_inv char_is_signed rt f_search_model_path
                stream_interval fuel l l' w w' inp id Hc Hbody) as Hr.
  split.
  - intros Hid.
    destruct (Chat_reload_id_inv rt f_search_model_path l l' w w' id Hid Hr)
      as (lib_path & path & exe & m & _ & _ & _ & Hm & ->).
    rewrite Hm. split; reflexivity.
  - intros ->.
    destruct (Chat_reload_same_inv rt f_search_model_path l l' w w' Hr)
      as (m & _ & _ & ->).
    split; reflexivity.
Qed.

Lemma roles_after_reload_witness :
  role0 echo_locals_foo = rt_get_role0 echo_rt (chat_mod echo_loaded_foo)
  /\ role1 echo_locals_foo = rt_get_role1 echo_rt (chat_mod echo_loaded_foo).
Proof.
  refine (proj1 (roles_after_reload true echo_rt sibling_search 2 10
                   echo_locals echo_locals_foo echo_loaded echo_loaded_foo
                   "/reload foo-q4f16_0" "foo-q4f16_0" _ _) _).
  - reflexivity.
  - vm_compute. reflexivity.
  - discriminate.
Defined.

(** A [/reload] without identifier calls [reload] on the current
    [executable] and [model_path]. *)
Lemma Chat_body_plain_reload (char_is_signed : bool) (rt : Runtime)
    (f_search_model_path : list string -> Run (string * string))
    (stream_interval : Z) (fuel : nat) (l : Locals rt) (w : World rt) (inp : string) :
  classify inp = Reload "" ->
  Chat_body char_is_signed rt f_search_model_path stream_interval fuel l inp w
  = reloaded_with (executable l) (model_path l) l w.
Proof.
  intros Hc. unfold Chat_body, reloaded_with. rewrite Hc.
  unfold Chat_reload. cbn [String.eqb].
  unfold mbind, try_tell, print, mret.
  destruct (rt_reload rt (executable l) (model_path l) (chat_mod w)); reflexivity.
Qed.

(** C10: a [/reload] without identifier calls [reload] on the library and
    the model path of the most recent resolution.  As long as no [/reload]
    with an identifier is read these are the ones [Chat] was started with;
    after a successful [/reload <id>], and whatever lines other than a
    [/reload] with an identifier follow, they are the library loaded from the
    path resolved for [id] and the model path resolved for [id]. *)
Theorem plain_reload_uses_last_resolved (char_is_signed : bool) (rt : Runtime)
    (f_search_model_path : list string -> Run (string * string))
    (stream_interval : Z) (fuel : nat) :
  (forall (l l2 : Locals rt) (w w2 : World rt) (between : list string) (inp2 : string),
     session_run char_is_signed rt f_search_model_path stream_interval fuel
       l w between l2 w2 ->
     forallb keeps_model between = true ->
     classify inp2 = Reload "" ->
     Chat_body char_is_signed rt f_search_model_path stream_interval fuel l2 inp2 w2
     = reloaded_with (executable l) (model_path l) l2 w2)
  /\ (forall (l l1 l2 : Locals rt) (w w1 w2 : World rt) (inp1 id inp2 : string)
        (between : list string),
       classify inp1 = Reload id ->
       id <> "" ->
       Chat_body char_is_signed rt f_search_model_path stream_interval fuel l inp1 w
       = (w1, Ret (Continue l1)) ->
       session_run char_is_signed rt f_search_model_path stream_interval fuel
         l1 w1 between l2 w2 ->
       forallb keeps_model between = true ->
       classify inp2 = Reload "" ->
       exists lib_path path exe,
         run_res (f_search_model_path [id]) = Ret (lib_path, path)
         /\ LoadFromFile rt lib_path = Ret exe
         /\ Chat_body char_is_signed rt f_search_model_path stream_interval fuel
              l2 inp2 w2
            = reloaded_with exe path l2 w2).
Proof.
  split.
  - intros l l2 w w2 between inp2 Hrun Hkeep Hc2.
    rewrite (session_run_keeps_model char_is_signed rt f_search_model_path
               stream_interval fuel l l2 w w2 between Hrun Hkeep).
    apply Chat_body_plain_reload, Hc2.
  - intros l l1 l2 w w1 w2 inp1 id inp2 between Hc1 Hid Hbody Hrun Hkeep Hc2.
    pose proof (Chat_body_reload_inv char_is_signed rt f_search_model_path
                  stream_interval fuel l l1 w w1 inp1 id Hc1 Hbody) as Hr.
    destruct (Chat_reload_id_inv rt f_search_model_path l l1 w w1 id Hid Hr)
      as (lib_path & path & exe & m & Hs & Hl & _ & _ & Hl1).
    pose proof (session_run_keeps_model char_is_signed rt f_search_model_path
                  stream_interval fuel l1 l2 w1 w2 between Hrun Hkeep) as ->.
    exists lib_path, path, exe. split; [exact Hs|]. split; [exact Hl|].
    rewrite (Chat_body_plain_reload char_is_signed rt f_search_model_path
               stream_interval fuel l1 w2 inp2 Hc2).
    subst l1. reflexivity.
Qed.

Lemma plain_reload_uses_last_resolved_witness :
  exists lib_path path exe,
    run_res (sibling_search ["foo-q4f16_0"]) = Ret (lib_path, path)
    /\ LoadFromFile echo_rt lib_path = Ret exe
    /\ Chat_body true echo_rt sibling_search 2 10 echo_locals_foo "/reload" echo_later_foo
       = reloaded_with exe path echo_locals_foo echo_later_foo.
Proof.
  apply (proj2 (plain_reload_uses_last_resolved true echo_rt sibling_search 2 10)
           echo_locals echo_locals_foo echo_locals_foo
           echo_loaded echo_loaded_foo echo_later_foo
           "/reload foo-q4f16_0" "foo-q4f16_0" "/reload" ["/stats"; "hi"]).
  - reflexivity.
  - discriminate.
  - vm_compute. reflexivity.
  - apply (run_round true echo_rt sibling_search 2 10 echo_locals_foo echo_locals_foo
             echo_locals_foo echo_loaded_foo
             (echo_round echo_locals_foo "/stats" echo_loaded_foo) echo_later_foo
             "/stats" ["hi"]).
    + vm_compute. reflexivity.
    + apply (run_round true echo_rt sibling_search 2 10 echo_locals_foo echo_locals_foo
               echo_locals_foo
               (echo_round echo_locals_foo "/stats" echo_loaded_foo)
               echo_later_foo echo_later_foo "hi" []).
      * vm_compute. reflexivity.
      * apply run_done.
  - reflexivity.
  - reflexivity.
Defined.

(** The session of the example, read off: the prompts are answered under
    the role names of the reloaded model, and the last [/reload] loads the
    library and the model path found for [foo-q4f16_0]. *)
Example echo_session_foo :
  cout echo_later_foo
  = "Use config /home/user/mlc-llm/dist/foo-q4f16_0/params/mlc-chat-config.json" ++ endl
    ++ "Use lib /home/user/mlc-llm/dist/foo-q4f16_0/foo-q4f16_0-cuda.so" ++ endl
    ++ "LOAD MODEL foo-q4f16_0 SUCCESS" ++ endl
    ++ "HUMAN: encode: 0.0 tok/s, decode: 0.0 tok/s" ++ endl
    ++ "HUMAN: BOT: You said: hi" ++ endl
  /\ chat_mod (fst (Chat_body true echo_rt sibling_search 2 10 echo_locals_foo "/reload"
                      echo_later_foo))
     = mkEcho "/home/user/mlc-llm/dist/foo-q4f16_0/foo-q4f16_0-cuda.so"
         "/home/user/mlc-llm/dist/foo-q4f16_0/params" 3 "" [].
Proof. split; vm_compute; reflexivity. Qed.

(** The rounds of [session_run] are those of [Chat_loop]. *)
Lemma Chat_loop_session_run (char_is_signed : bool) (rt : Runtime)
    (f_search_model_path : list string -> Run (string * string))
    (stream_interval : Z) (fuel : nat) (l l' : Locals rt) (w w' : World rt)
    (cin rest : list string) :
  session_run char_is_signed rt f_search_model_path stream_interval fuel l w cin l' w' ->
  Chat_loop char_is_signed rt f_search_model_path stream_interval fuel l (cin ++ rest) w
  = Chat_loop char_is_signed rt f_search_model_path stream_interval fuel l' rest w'.
Proof.
  induction 1 as [|l l1 l2 w w1 w2 inp cin Hstep Hrun IH]; [reflexivity|].
  rewrite <- IH. cbn [app Chat_loop].
  unfold mbind at 1. unfold mbind at 1 in Hstep.
  destruct (print (role0 l ++ ": ") w) as [w0 [[]| | |]]; try discriminate.
  unfold mbind at 1. rewrite Hstep. reflexivity.
Qed.

(** [CountUTF8] refuses a lead byte without its continuation bytes, and a
    continuation byte where a lead byte is due. *)
Example CountUTF8_rejects :
  CountUTF8 true (bytes [195]) = Raise (FatalLog "Invalid UTF8 string")
  /\ CountUTF8 false (bytes [226; 130]) = Raise (FatalLog "Invalid UTF8 string")
  /\ CountUTF8 true (bytes [97; 169]) = Raise (FatalLog "Invalid UTF8 string")
  /\ CountUTF8 false (bytes [97; 195; 169; 98]) = Ret [bytes [97]; bytes [195; 169]; bytes [98]].
Proof. repeat split; vm_compute; reflexivity. Qed.

(** * Further properties *)

(** ** [CountUTF8] on arbitrary bytes *)

Lemma utf8_class_1 (c : ascii) :
  (nat_of_ascii c <? 128)%nat = true -> utf8_class c = Some 1.
Proof. intros H. unfold utf8_class. rewrite H. reflexivity. Qed.

Lemma utf8_class_2 (c : ascii) :
  ((192 <=? nat_of_ascii c)%nat && (nat_of_ascii c <? 224)%nat) = true ->
  utf8_class c = Some 2.
Proof.
  intros H. unfold utf8_class. rewrite H.
  apply andb_true_iff in H. destruct H as [H1 _]. apply Nat.leb_le in H1.
  destruct (Nat.ltb_spec (nat_of_ascii c) 128); [lia | reflexivity].
Qed.

Lemma utf8_class_3 (c : ascii) :
  ((224 <=? nat_of_ascii c)%nat && (nat_of_ascii c <? 240)%nat) = true ->
  utf8_class c = Some 3.
Proof.
  intros H. unfold utf8_class. rewrite H.
  apply andb_true_iff in H. destruct H as [H1 _]. apply Nat.leb_le in H1.
  destruct (Nat.ltb_spec (nat_of_ascii c) 128); [lia|].
  destruct (Nat.ltb_spec (nat_of_ascii c) 224); [lia|].
  rewrite andb_false_r. reflexivity.
Qed.

Lemma utf8_class_4 (c : ascii) :
  ((240 <=? nat_of_ascii c)%nat && (nat_of_ascii c <? 248)%nat) = true ->
  utf8_class c = Some 4.
Proof.
  intros H. unfold utf8_class. rewrite H.
  apply andb_true_iff in H. destruct H as [H1 _]. apply Nat.leb_le in H1.
  destruct (Nat.ltb_spec (nat_of_ascii c) 128); [lia|].
  destruct (Nat.ltb_spec (nat_of_ascii c) 224); [lia|].
  destruct (Nat.ltb_spec (nat_of_ascii c) 240); [lia|].
  rewrite !andb_false_r. reflexivity.
Qed.

Lemma is_continuation_zero : is_continuation zero = false.
Proof. reflexivity. Qed.

(** One round at a position inside the string: either a well-formed
    sequence starts there, or the round is fatal. *)
Lemma CountUTF8_loop_head (sg : bool) (fuel : nat) (p : string) (c0 : ascii)
    (t0 : string) (ret : list string) :
  (exists q t', well_formed_seq q = true /\ String c0 t0 = q ++ t')
  \/ CountUTF8_loop sg (S fuel) (p ++ String c0 t0) (String.length p) ret
     = Raise (FatalLog "Invalid UTF8 string").
Proof.
  assert (Hlen : String.length (p ++ String c0 t0)
                 = String.length p + S (String.length t0))
    by (rewrite length_append; reflexivity).
  assert (Hat : forall k, at_ (p ++ String c0 t0) (String.length p + k)
                          = at_ (String c0 t0) k)
    by (intros k; apply at_append).
  assert (Hat0 : at_ (p ++ String c0 t0) (String.length p) = c0)
    by (pose proof (Hat 0) as H0; rewrite Nat.add_0_r in H0; exact H0).
  rewrite CountUTF8_loop_S, Hlen, Hat0, !Hat.
  destruct (Nat.ltb_spec (String.length p) (String.length p + S (String.length t0)));
    [|lia].
  destruct (band_tests sg c0) as (T1 & T2 & T3 & T4 & _).
  cbv zeta in T1, T2, T3, T4. rewrite T1, T2, T3, T4, !band_cont.
  destruct (nat_of_ascii c0 <? 128)%nat eqn:E1.
  { left. exists (String c0 ""), t0. split; [|reflexivity].
    unfold well_formed_seq. rewrite (utf8_class_1 c0 E1). reflexivity. }
  destruct t0 as [|c1 t1].
  { right. unfold at_. simpl.
    destruct (Nat.ltb_spec (String.length p + 1) (String.length p + 1)); [lia|].
    destruct (Nat.ltb_spec (String.length p + 2) (String.length p + 1)); [lia|].
    reflexivity. }
  change (at_ (String c0 (String c1 t1)) 1) with c1.
  change (at_ (String c0 (String c1 t1)) 2) with (at_ t1 0).
  change (at_ (String c0 (String c1 t1)) 3) with (at_ t1 1).
  destruct (Nat.ltb_spec (String.length p + 1)
              (String.length p + S (String.length (String c1 t1)))); [|simpl in *; lia].
  cbn [andb].
  destruct ((192 <=? nat_of_ascii c0)%nat && (nat_of_ascii c0 <? 224)%nat) eqn:E2.
  { destruct (is_continuation c1) eqn:C1.
    - left. exists (String c0 (String c1 "")), t1. split; [|reflexivity].
      unfold well_formed_seq. rewrite (utf8_class_2 c0 E2). simpl. rewrite C1. reflexivity.
    - right. cbn [andb].
      assert (E3 : ((224 <=? nat_of_ascii c0)%nat && (nat_of_ascii c0 <? 240)%nat) = false).
      { apply andb_true_iff in E2. destruct E2 as [_ E2]. apply Nat.ltb_lt in E2.
        destruct (Nat.leb_spec 224 (nat_of_ascii c0)); [lia | reflexivity]. }
      assert (E4 : ((240 <=? nat_of_ascii c0)%nat && (nat_of_ascii c0 <? 248)%nat) = false).
      { apply andb_true_iff in E2. destruct E2 as [_ E2]. apply Nat.ltb_lt in E2.
        destruct (Nat.leb_spec 240 (nat_of_ascii c0)); [lia | reflexivity]. }
      rewrite E3, E4, !andb_false_r. reflexivity. }
  cbn [andb].
  destruct ((224 <=? nat_of_ascii c0)%nat && (nat_of_ascii c0 <? 240)%nat) eqn:E3.
  { assert (E4 : ((240 <=? nat_of_ascii c0)%nat && (nat_of_ascii c0 <? 248)%nat) = false).
    { apply andb_true_iff in E3. destruct E3 as [_ E3]. apply Nat.ltb_lt in E3.
      destruct (Nat.leb_spec 240 (nat_of_ascii c0)); [lia | reflexivity]. }
    rewrite E4, !andb_false_r. cbn [andb].
    destruct (is_continuation c1) eqn:C1; [|right; reflexivity].
    destruct t1 as [|c2 t2].
    { right. change (at_ "" 0) with zero. rewrite is_continuation_zero. reflexivity. }
    change (at_ (String c2 t2) 0) with c2.
    destruct (is_continuation c2) eqn:C2; [|right; reflexivity].
    left. exists (String c0 (String c1 (String c2 ""))), t2. split; [|reflexivity].
    unfold well_formed_seq. rewrite (utf8_class_3 c0 E3). simpl. rewrite C1, C2.
    reflexivity. }
  cbn [andb].
  destruct ((240 <=? nat_of_ascii c0)%nat && (nat_of_ascii c0 <? 248)%nat) eqn:E4;
    [|right; rewrite !andb_false_r; reflexivity].
  destruct t1 as [|c2 t2].
  { right. simpl String.length.
    destruct (Nat.ltb_spec (String.length p + 2) (String.length p + 2)); [lia|].
    reflexivity. }
  change (at_ (String c2 t2) 0) with c2.
  change (at_ (String c2 t2) 1) with (at_ t2 0).
  destruct (is_continuation c1) eqn:C1; [|right; rewrite !andb_false_r; reflexivity].
  destruct (is_continuation c2) eqn:C2; [|right; rewrite !andb_false_r; reflexivity].
  destruct t2 as [|c3 t3].
  { right. change (at_ "" 0) with zero. rewrite is_continuation_zero, !andb_false_r.
    reflexivity. }
  change (at_ (String c3 t3) 0) with c3.
  destruct (is_continuation c3) eqn:C3; [|right; rewrite !andb_false_r; reflexivity].
  left. exists (String c0 (String c1 (String c2 (String c3 "")))), t3.
  split; [|reflexivity].
  unfold well_formed_seq. rewrite (utf8_class_4 c0 E4). simpl. rewrite C1, C2, C3.
  reflexivity.
Qed.

(** The loop from a position on: it returns the well-formed sequences that
    make up the rest of the string, or it is fatal; the fuel is enough. *)
Lemma CountUTF8_loop_outcome (sg : bool) (fuel : nat) :
  forall (p t : string) (ret : list string),
    String.length t <= fuel ->
    (exists tail,
        CountUTF8_loop sg fuel (p ++ t) (String.length p) ret = Ret (ret ++ tail)%list
        /\ Forall (fun q => well_formed_seq q = true) tail
        /\ join tail = t)
    \/ CountUTF8_loop sg fuel (p ++ t) (String.length p) ret
       = Raise (FatalLog "Invalid UTF8 string").
Proof.
  induction fuel as [|fuel IH]; intros p t ret Hfuel.
  - destruct t; [|simpl in Hfuel; lia]. left. exists []. rewrite app_nil_r.
    split; [|split; [constructor | reflexivity]].
    apply CountUTF8_loop_end. rewrite append_nil_r. lia.
  - destruct t as [|c0 t0].
    + left. exists []. rewrite app_nil_r. split; [|split; [constructor | reflexivity]].
      apply CountUTF8_loop_end. rewrite append_nil_r. lia.
    + destruct (CountUTF8_loop_head sg fuel p c0 t0 ret) as [(q & t' & Hq & Ht) | Hf];
        [|right; exact Hf].
      rewrite Ht.
      destruct (CountUTF8_loop_step sg fuel p q t' ret Hq) as [-> _].
      rewrite <- append_assoc, <- length_append.
      assert (Hlen : String.length t' <= fuel).
      { rewrite Ht, length_append in Hfuel. destruct q; [discriminate|].
        simpl in Hfuel. lia. }
      destruct (IH (p ++ q) t' (ret ++ [q])%list Hlen) as [(tail & Hr & Hwf & Hj) | Hf].
      * left. exists (q :: tail). rewrite Hr, <- app_assoc. simpl.
        split; [reflexivity|]. split; [constructor; assumption|]. rewrite Hj. reflexivity.
      * right. exact Hf.
Qed.

Lemma Ret_inj {A : Type} (a b : A) : Ret a = Ret b -> a = b.
Proof. intros [= H]. exact H. Qed.

(** X1: [CountUTF8] returns the clusters [cl] exactly when [cl] is a list
    of well-formed sequences that make up the string: what it returns, put
    together, is always the input, every cluster it returns is one
    well-formed sequence, and a string has at most one such splitting. *)
Theorem CountUTF8_returns_iff (char_is_signed : bool) (s : string) (cl : list string) :
  CountUTF8 char_is_signed s = Ret cl <->
  Forall (fun q => well_formed_seq q = true) cl /\ join cl = s.
Proof.
  split.
  - unfold CountUTF8. intros H.
    destruct (CountUTF8_loop_outcome char_is_signed (String.length s) "" s []
                (Nat.le_refl _)) as [(tail & Hr & Hwf & Hj) | Hf].
    + simpl in Hr. rewrite Hr in H. apply Ret_inj in H. subst tail. auto.
    + simpl in Hf. rewrite Hf in H. discriminate.
  - intros [Hwf <-]. unfold CountUTF8.
    apply (CountUTF8_loop_wf char_is_signed cl "" _ [] Hwf).
    apply well_formed_seqs_length, Hwf.
Qed.

(** X2: [CountUTF8] ends on every string: it returns clusters or it is
    fatal with "Invalid UTF8 string"; its loop never goes on for more rounds
    than the string has bytes. *)
Theorem CountUTF8_terminates (char_is_signed : bool) (s : string) :
  (exists cl, CountUTF8 char_is_signed s = Ret cl)
  \/ CountUTF8 char_is_signed s = Raise (FatalLog "Invalid UTF8 string").
Proof.
  unfold CountUTF8.
  destruct (CountUTF8_loop_outcome char_is_signed (String.length s) "" s []
              (Nat.le_refl _)) as [(tail & Hr & _) | Hf].
  - left. exists tail. exact Hr.
  - right. exact Hf.
Qed.

Lemma CountUTF8_loop_signedness (fuel : nat) :
  forall (s : string) (pos : nat) (ret : list string),
    CountUTF8_loop true fuel s pos ret = CountUTF8_loop false fuel s pos ret.
Proof.
  induction fuel as [|fuel IH]; intros s pos ret; [reflexivity|].
  rewrite !CountUTF8_loop_S.
  destruct (band_tests true (at_ s pos)) as (A1 & A2 & A3 & A4 & _).
  destruct (band_tests false (at_ s pos)) as (B1 & B2 & B3 & B4 & _).
  cbv zeta in *. rewrite A1, A2, A3, A4, B1, B2, B3, B4, !band_cont, !IH.
  reflexivity.
Qed.

(** X3: the clusters do not depend on whether [char] is signed: the masks
    of [CountUTF8] give the same tests on a signed and on an unsigned
    [char]. *)
Theorem CountUTF8_signedness (s : string) : CountUTF8 true s = CountUTF8 false s.
Proof. unfold CountUTF8. apply CountUTF8_loop_signedness. Qed.

(** The rounds on well-formed sequences that are followed by more bytes. *)
Lemma CountUTF8_loop_skip (sg : bool) (seqs : list string) :
  forall (p t : string) (fuel : nat) (ret : list string),
    Forall (fun q => well_formed_seq q = true) seqs ->
    CountUTF8_loop sg (List.length seqs + fuel) (p ++ join seqs ++ t) (String.length p) ret
    = CountUTF8_loop sg fuel ((p ++ join seqs) ++ t) (String.length (p ++ join seqs))
        (ret ++ seqs)%list.
Proof.
  induction seqs as [|q seqs IH]; intros p t fuel ret Hwf.
  - simpl. rewrite append_nil_r, app_nil_r. reflexivity.
  - inversion Hwf as [|q' l' Hq Hseqs]; subst.
    cbn [join fold_right List.length Nat.add]. fold (join seqs).
    rewrite (append_assoc q (join seqs) t).
    destruct (CountUTF8_loop_step sg (List.length seqs + fuel) p q (join seqs ++ t) ret Hq)
      as [-> _].
    rewrite <- (append_assoc p q (join seqs ++ t)), <- length_append.
    rewrite (IH (p ++ q) t fuel (ret ++ [q])%list Hseqs).
    rewrite <- app_assoc, !append_assoc. reflexivity.
Qed.

(** X4: a string that ends inside a character is refused: after any
    well-formed sequences, a lead byte that announces [n] bytes and is
    followed by fewer than [n - 1] bytes up to the end of the string makes
    [CountUTF8] fatal.  A message cut between the bytes of a character cannot
    be drawn. *)
Theorem CountUTF8_truncated (char_is_signed : bool) (seqs : list string)
    (lead : ascii) (rest : string) (n : nat) :
  Forall (fun q => well_formed_seq q = true) seqs ->
  utf8_class lead = Some n ->
  S (String.length rest) < n ->
  CountUTF8 char_is_signed (join seqs ++ String lead rest)
  = Raise (FatalLog "Invalid UTF8 string").
Proof.
  intros Hwf Hc Hn. unfold CountUTF8.
  pose proof (well_formed_seqs_length seqs Hwf) as Hlen.
  rewrite length_append. cbn [String.length].
  replace (String.length (join seqs) + S (String.length rest))
    with (List.length seqs
          + S (String.length (join seqs) - List.length seqs + String.length rest))
    by lia.
  change (join seqs ++ String lead rest) with ("" ++ join seqs ++ String lead rest).
  change 0 with (String.length "").
  rewrite (CountUTF8_loop_skip char_is_signed seqs "" (String lead rest) _ [] Hwf).
  destruct (CountUTF8_loop_head char_is_signed
              (String.length (join seqs) - List.length seqs + String.length rest)
              ("" ++ join seqs) lead rest ([] ++ seqs)%list)
    as [(q & t' & Hq & Ht) | Hf]; [exfalso | exact Hf].
  pose proof (well_formed_matches_lead q Hq) as Hm. unfold cluster_matches_lead in Hm.
  destruct q as [|c q']; [discriminate|].
  simpl in Ht. injection Ht as <- ->.
  change (at_ (String lead q') 0) with lead in Hm. rewrite Hc in Hm.
  injection Hm as ->. rewrite length_append in Hn. simpl in Hn. lia.
Qed.

Lemma CountUTF8_truncated_witness :
  CountUTF8 true (join utf8_sample ++ String (ascii_of_nat 226) (bytes [130]))
  = Raise (FatalLog "Invalid UTF8 string").
Proof.
  apply (CountUTF8_truncated true utf8_sample (ascii_of_nat 226) (bytes [130]) 3).
  - repeat constructor.
  - reflexivity.
  - simpl. lia.
Defined.

(** ** The redraw step on the terminal *)

Lemma common_prefix_length_refl (A : list string) :
  common_prefix_length A A = List.length A.
Proof.
  induction A as [|a A IH]; simpl; [reflexivity|].
  rewrite String.eqb_refl, IH. reflexivity.
Qed.

Lemma common_prefix_length_le (A B : list string) :
  common_prefix_length A B <= List.length A.
Proof.
  revert B. induction A as [|a A IH]; intros B; simpl; [lia|].
  destruct B as [|b B]; [lia|]. destruct (a =? b); [|lia].
  specialize (IH B). lia.
Qed.

Lemma common_prefix_length_firstn (A B : list string) :
  firstn (common_prefix_length A B) A = firstn (common_prefix_length A B) B.
Proof.
  revert B. induction A as [|a A IH]; intros B; simpl; [reflexivity|].
  destruct B as [|b B]; [reflexivity|].
  destruct (String.eqb_spec a b) as [->|]; [|reflexivity].
  simpl. rewrite IH. reflexivity.
Qed.

Lemma apply_erases (n : nat) (screen : list string) :
  n <= List.length screen ->
  apply_actions (repeat Erase n) screen = firstn (List.length screen - n) screen.
Proof.
  revert screen. induction n as [|n IH]; intros screen Hn; simpl.
  - rewrite Nat.sub_0_r, firstn_all. reflexivity.
  - unfold apply_actions in IH. rewrite removelast_firstn_len, IH.
    + rewrite length_firstn, firstn_firstn. f_equal. lia.
    + rewrite length_firstn. lia.
Qed.

Lemma apply_prints (l screen : list string) :
  apply_actions (map Print l) screen = (screen ++ l)%list.
Proof.
  revert screen. induction l as [|c l IH]; intros screen; simpl.
  - rewrite app_nil_r. reflexivity.
  - unfold apply_actions in IH. rewrite IH, <- app_assoc. reflexivity.
Qed.

(** X5: a redraw step turns the line that shows the clusters [A] into the
    line that shows [B]: what it writes is a run of erase sequences, each of
    which takes the last cluster off the line, followed by clusters, each of
    which is added at its end, and the line [A] so edited is [B]. *)
Theorem redraw_updates_line (A B : list string) :
  exists acts,
    redraw_print A B = render acts
    /\ apply_actions acts A = B.
Proof.
  exists (repeat Erase (List.length A - common_prefix_length A B)
          ++ map Print (skipn (common_prefix_length A B) B))%list.
  split; [apply redraw_print_spec|].
  unfold apply_actions. rewrite fold_left_app.
  fold (apply_actions (repeat Erase (List.length A - common_prefix_length A B)) A).
  rewrite apply_erases by lia.
  fold (apply_actions (map Print (skipn (common_prefix_length A B) B))
          (firstn (List.length A - (List.length A - common_prefix_length A B)) A)).
  rewrite apply_prints.
  pose proof (common_prefix_length_le A B).
  replace (List.length A - (List.length A - common_prefix_length A B))
    with (common_prefix_length A B) by lia.
  rewrite common_prefix_length_firstn. apply firstn_skipn.
Qed.

(** X6: when the message has not changed the redraw step writes nothing. *)
Theorem redraw_unchanged (A : list string) : redraw_print A A = "".
Proof.
  rewrite redraw_print_spec, common_prefix_length_refl, Nat.sub_diag, skipn_all.
  reflexivity.
Qed.

(** ** [FindFile] on joined and on empty lists *)

Lemma probe_order_app (d1 d2 names suffixes : list string) :
  probe_order (d1 ++ d2) names suffixes
  = (probe_order d1 names suffixes ++ probe_order d2 names suffixes)%list.
Proof. unfold probe_order. apply flat_map_app. Qed.

(** X7: the directories are searched in order and an earlier one wins: the
    search in [dirs1 ++ dirs2] is the search in [dirs1] and, only when that
    finds nothing, the search in [dirs2]. *)
Theorem FindFile_app (fs : FileSystem) (dirs1 dirs2 names suffixes : list string) :
  FindFile fs (dirs1 ++ dirs2) names suffixes
  = match FindFile fs dirs1 names suffixes with
    | Some found => Some found
    | None => FindFile fs dirs2 names suffixes
    end.
Proof.
  unfold FindFile. rewrite !FindFile_trace_scan, probe_order_app, first_hit_app.
  destruct (first_hit fs (probe_order dirs1 names suffixes)) as [tr [found|]];
    [reflexivity|].
  destruct (first_hit fs (probe_order dirs2 names suffixes)); reflexivity.
Qed.

Lemma probe_order_no_suffix (dirs names : list string) : probe_order dirs names [] = [].
Proof.
  unfold probe_order. induction dirs as [|d dirs IH]; simpl in *; [reflexivity|].
  rewrite IH, app_nil_r. clear IH.
  induction names as [|n names IHn]; simpl; auto.
Qed.

Lemma probe_order_no_name (dirs suffixes : list string) : probe_order dirs [] suffixes = [].
Proof.
  unfold probe_order. induction dirs as [|d dirs IH]; simpl; auto.
Qed.

(** X8: with no directory, no name or no suffix, [FindFile] looks at no
    path and finds nothing, whatever the file system holds. *)
Theorem FindFile_empty (fs : FileSystem) (dirs names suffixes : list string) :
  FindFile_trace fs [] names suffixes = ([], None)
  /\ FindFile_trace fs dirs [] suffixes = ([], None)
  /\ FindFile_trace fs dirs names [] = ([], None).
Proof.
  split; [reflexivity|]. split.
  - rewrite FindFile_trace_scan, probe_order_no_name. reflexivity.
  - rewrite FindFile_trace_scan, probe_order_no_suffix. reflexivity.
Qed.

(** ** Automatic choice of the device *)

(** X9: for the name [auto], the device is the first of cuda, metal,
    vulkan, opencl whose device 0 is there, under the ordinal asked for; it
    is fatal when none is there.  Every name the detection gives is one
    [GetDevice] knows. *)
Theorem main_device_auto (probe : DLDevice -> bool) (id : Z) :
  main_device probe "auto" id
  = match find (fun kind => probe (mkDLDevice kind 0)) auto_backends with
    | Some kind => Ret (mkDLDevice kind id)
    | None => Raise (FatalLog "Cannot auto detect device-name")
    end
  /\ DetectDeviceName probe "auto"
     = match find (fun kind => probe (mkDLDevice kind 0)) auto_backends with
       | Some kind => Ret (name_of_backend kind)
       | None => Raise (FatalLog "Cannot auto detect device-name")
       end.
Proof.
  unfold main_device, DetectDeviceName, auto_backends. simpl.
  destruct (probe (mkDLDevice kDLCUDA 0)); [split; reflexivity|].
  destruct (probe (mkDLDevice kDLMetal 0)); [split; reflexivity|].
  destruct (probe (mkDLDevice kDLVulkan 0)); [split; reflexivity|].
  destruct (probe (mkDLDevice kDLOpenCL 0)); split; reflexivity.
Qed.

(** ** The candidates of the first search *)



(** ** What the artifact search returns *)

Lemma FindFile_Some_regular (fs : FileSystem) (dirs names suffixes : list string)
    (found : string) :
  FindFile fs dirs names suffixes = Some found ->
  fs_is_regular_file fs found = true
  /\ exists p, In p (probe_order dirs names suffixes)
               /\ fs_exists fs p = true /\ found = fs_canonical fs p.
Proof.
  unfold FindFile. rewrite FindFile_trace_scan. intros H.
  destruct (first_hit_Some fs _ _ H) as (b & p & a & Hl & _ & Hp & _).
  apply probe_Some in Hp. destruct Hp as (He & Hc & Hr).
  split; [exact Hr|]. exists p. rewrite Hl. split; [|auto].
  apply in_or_app. right. left. reflexivity.
Qed.

Lemma search_config_Some (fs : FileSystem) (artifact_path : string)
    (cands : list string) (cfg id : string) :
  search_config fs artifact_path cands = Some (cfg, id) ->
  In id cands
  /\ FindFile fs [artifact_path ++ "/" ++ id ++ "/params";
                  artifact_path ++ "/prebuilt/" ++ id]
       ["mlc-chat-config"] [".json"] = Some cfg.
Proof.
  induction cands as [|c cands IH]; cbn [search_config]; [discriminate|].
  destruct (FindFile fs [artifact_path ++ "/" ++ c ++ "/params";
                         artifact_path ++ "/prebuilt/" ++ c]
              ["mlc-chat-config"] [".json"]) as [found|] eqn:E.
  - intros H. inversion H; subst. split; [left; reflexivity | exact E].
  - intros H. destruct (IH H) as [Hin Hf]. split; [right; exact Hin | exact Hf].
Qed.


(** X11: when the search returns a library path and a model path, a
    configuration file [mlc-chat-config.json] was found for one of the
    candidates, under [params] of its directory or under [prebuilt]; the
    model path is the directory of the canonical path of that file; the
    library path is the canonical path of a regular file found in the library
    directory under one of the two library names; a file [ndarray-cache.json]
    was found in the model path; and nothing went to the error stream. *)
Theorem search_result_sound (fs : FileSystem) (os : OS)
    (artifact_path device_name arch_suffix : string) (cands : list string)
    (lib_path model_path : string) :
  run_res (f_search_model_path fs os artifact_path device_name arch_suffix cands)
  = Ret (lib_path, model_path) ->
  exists id cfg lib_dir params_json,
    In id cands
    /\ FindFile fs [artifact_path ++ "/" ++ id ++ "/params";
                    artifact_path ++ "/prebuilt/" ++ id]
         ["mlc-chat-config"] [".json"] = Some cfg
    /\ fs_is_regular_file fs cfg = true
    /\ model_path = parent_path cfg
    /\ lib_dir_path model_path = Ret lib_dir
    /\ FindFile fs [lib_dir]
         [id ++ "-" ++ device_name; (id ++ "-" ++ device_name) ++ arch_suffix]
         (GetLibSuffixes os) = Some lib_path
    /\ fs_is_regular_file fs lib_path = true
    /\ FindFile fs [model_path] ["ndarray-cache"] [".json"] = Some params_json
    /\ run_err (f_search_model_path fs os artifact_path device_name arch_suffix cands) = "".
Proof.
  unfold f_search_model_path.
  destruct (search_config fs artifact_path cands) as [[cfg id]|] eqn:Hc; [|discriminate].
  destruct (search_config_Some fs artifact_path cands cfg id Hc) as [Hin Hcfg].
  destruct (lib_dir_path (parent_path cfg)) as [dir| | |] eqn:Hd; try discriminate.
  destruct (FindFile fs [dir] (lib_candidates device_name arch_suffix id)
              (GetLibSuffixes os)) as [lib|] eqn:Hl; [|discriminate].
  destruct (FindFile fs [parent_path cfg] ["ndarray-cache"] [".json"]) as [pj|] eqn:Hp;
    [|discriminate].
  simpl. intros [= <- <-]. exists id, cfg, dir, pj.
  repeat (split; [first [assumption | reflexivity
                        | exact (proj1 (FindFile_Some_regular fs _ _ _ _ Hcfg))
                        | exact (proj1 (FindFile_Some_regular fs _ _ _ _ Hl))]|]).
  reflexivity.
Qed.

Lemma search_result_sound_witness :
  exists id cfg lib_dir params_json,
    In id ["foo-q3f16_0"; "foo-q4f16_0"]
    /\ FindFile fs_lib_sibling ["dist" ++ "/" ++ id ++ "/params"; "dist" ++ "/prebuilt/" ++ id]
         ["mlc-chat-config"] [".json"] = Some cfg
    /\ fs_is_regular_file fs_lib_sibling cfg = true
    /\ "/home/user/mlc-llm/dist/foo-q4f16_0/params" = parent_path cfg
    /\ lib_dir_path "/home/user/mlc-llm/dist/foo-q4f16_0/params" = Ret lib_dir
    /\ FindFile fs_lib_sibling [lib_dir]
         [id ++ "-" ++ "cuda"; (id ++ "-" ++ "cuda") ++ "_x86_64"]
         (GetLibSuffixes OtherOS)
       = Some "/home/user/mlc-llm/dist/foo-q4f16_0/foo-q4f16_0-cuda.so"
    /\ fs_is_regular_file fs_lib_sibling
         "/home/user/mlc-llm/dist/foo-q4f16_0/foo-q4f16_0-cuda.so" = true
    /\ FindFile fs_lib_sibling ["/home/user/mlc-llm/dist/foo-q4f16_0/params"]
         ["ndarray-cache"] [".json"] = Some params_json
    /\ run_err (f_search_model_path fs_lib_sibling OtherOS "dist" "cuda" "_x86_64"
                  ["foo-q3f16_0"; "foo-q4f16_0"]) = "".
Proof.
  apply (search_result_sound fs_lib_sibling OtherOS "dist" "cuda" "_x86_64"
           ["foo-q3f16_0"; "foo-q4f16_0"]).
  vm_compute. reflexivity.
Defined.




(** *** The prebuilt layout *)

Lemma eqb_append_l (cwd a b : string) : (cwd ++ a =? cwd ++ b) = (a =? b).
Proof.
  induction cwd as [|c cwd IH]; simpl; [reflexivity|].
  rewrite Ascii.eqb_refl. exact IH.
Qed.

Lemma eqb_append_self (cwd a : string) : a <> "" -> (cwd ++ a =? cwd) = false.
Proof.
  intros Ha. induction cwd as [|c cwd IH]; simpl.
  - destruct a; [contradiction | reflexivity].
  - rewrite Ascii.eqb_refl. exact IH.
Qed.

Lemma probe_simple_fs_absent (cwd : string) (files dirs : list string) (p : string) :
  in_list (absolute cwd p) (files ++ dirs)%list = false ->
  probe (simple_fs cwd files dirs) p = None.
Proof.
  intros H. unfold probe, simple_fs. cbn [fs_exists]. rewrite H. reflexivity.
Qed.

Lemma FindFile_second_dir (fs : FileSystem) (dir1 dir2 name suffix found : string) :
  probe fs (dir1 ++ "/" ++ name ++ suffix) = None ->
  probe fs (dir2 ++ "/" ++ name ++ suffix) = Some found ->
  FindFile fs [dir1; dir2] [name] [suffix] = Some found.
Proof.
  intros H1 H2. unfold FindFile.
  cbn [FindFile_trace FindFile_names FindFile_suffixes]. rewrite H1.
  cbn [FindFile_trace FindFile_names FindFile_suffixes]. rewrite H2. reflexivity.
Qed.

(** X14: the prebuilt layout is found.  With artifact root [dist],
    candidate [foo-q4f16_0] and device [cuda], when exactly
    [dist/prebuilt/foo-q4f16_0/mlc-chat-config.json],
    [dist/prebuilt/foo-q4f16_0/ndarray-cache.json] and
    [dist/prebuilt/lib/foo-q4f16_0-cuda.so] are regular files, the search
    finds no configuration file under [dist/foo-q4f16_0/params], finds the one
    under [dist/prebuilt], looks for the library in [lib] next to the model
    directory, and returns the canonical paths of that library and of the
    model directory.  This holds under every current directory [cwd] and for
    every architecture suffix. *)
Theorem search_finds_prebuilt (cwd : string) (arch : Arch) :
  String.prefix "/" cwd = true ->
  (Z.of_nat (String.length cwd) + 27 < size_t_max)%Z ->
  f_search_model_path (fs_prebuilt_in cwd) OtherOS "dist" "cuda" (GetArchSuffix arch)
    ["foo-q4f16_0"]
  = mkRun
      ("Use config " ++ (cwd ++ "/dist/prebuilt/foo-q4f16_0/mlc-chat-config.json") ++ endl
       ++ "Use lib " ++ (cwd ++ "/dist/prebuilt/lib/foo-q4f16_0-cuda.so") ++ endl)
      ""
      (Ret (cwd ++ "/dist/prebuilt/lib/foo-q4f16_0-cuda.so",
            cwd ++ "/dist/prebuilt/foo-q4f16_0")).
Proof.
  intros Habs Hlen.
  assert (Hcfg : search_config (fs_prebuilt_in cwd) "dist" ["foo-q4f16_0"]
                 = Some (cwd ++ "/dist/prebuilt/foo-q4f16_0/mlc-chat-config.json",
                         "foo-q4f16_0")).
  { unfold search_config.
    rewrite (FindFile_second_dir _ _ _ _ _
               (cwd ++ "/dist/prebuilt/foo-q4f16_0/mlc-chat-config.json"));
      [reflexivity | |].
    - apply probe_simple_fs_absent.
      change (absolute cwd (("dist" ++ "/" ++ "foo-q4f16_0" ++ "/params") ++ "/"
                            ++ "mlc-chat-config" ++ ".json"))
        with (cwd ++ "/dist/foo-q4f16_0/params/mlc-chat-config.json").
      unfold in_list. cbn [existsb app].
      rewrite !eqb_append_l, (eqb_append_self cwd _) by discriminate. reflexivity.
    - apply (probe_simple_fs_file cwd _ _
               "dist/prebuilt/foo-q4f16_0/mlc-chat-config.json");
        [exact Habs | simpl; auto]. }
  assert (Hmp : parent_path (cwd ++ "/dist/prebuilt/foo-q4f16_0/mlc-chat-config.json")
                = cwd ++ "/dist/prebuilt/foo-q4f16_0").
  { apply parent_path_app; [reflexivity | reflexivity | discriminate]. }
  assert (Hdir : lib_dir_path (cwd ++ "/dist/prebuilt/foo-q4f16_0")
                 = Ret ((cwd ++ "/dist/prebuilt") ++ "/lib")).
  { rewrite lib_dir_path_long.
    - rewrite (filename_app_slash cwd "/dist/prebuilt/foo-q4f16_0") by discriminate.
      cbn [filename before_last_slash is_slash Ascii.eqb Bool.eqb String.eqb].
      f_equal. f_equal.
      apply parent_path_app; [reflexivity | reflexivity | discriminate].
    - rewrite length_append. simpl. lia.
    - rewrite length_append. simpl String.length. lia. }
  assert (Hlib : FindFile (fs_prebuilt_in cwd) [(cwd ++ "/dist/prebuilt") ++ "/lib"]
                   (lib_candidates "cuda" (GetArchSuffix arch) "foo-q4f16_0")
                   (GetLibSuffixes OtherOS)
                 = Some (cwd ++ "/dist/prebuilt/lib/foo-q4f16_0-cuda.so")).
  { apply FindFile_first_probe.
    replace (((cwd ++ "/dist/prebuilt") ++ "/lib") ++ "/"
             ++ lib_name "cuda" "foo-q4f16_0" ++ ".so")
      with (cwd ++ "/dist/prebuilt/lib/foo-q4f16_0-cuda.so")
      by (rewrite !append_assoc; reflexivity).
    rewrite <- (absolute_abs cwd "/dist/prebuilt/lib/foo-q4f16_0-cuda.so" Habs) at 2.
    apply probe_simple_fs_file; [exact Habs|].
    rewrite (absolute_abs cwd _ Habs). simpl; auto. }
  assert (Hpar : FindFile (fs_prebuilt_in cwd) [cwd ++ "/dist/prebuilt/foo-q4f16_0"]
                   ["ndarray-cache"] [".json"]
                 = Some (cwd ++ "/dist/prebuilt/foo-q4f16_0/ndarray-cache.json")).
  { apply FindFile_first_probe.
    replace ((cwd ++ "/dist/prebuilt/foo-q4f16_0") ++ "/" ++ "ndarray-cache" ++ ".json")
      with (cwd ++ "/dist/prebuilt/foo-q4f16_0/ndarray-cache.json")
      by (rewrite append_assoc; reflexivity).
    rewrite <- (absolute_abs cwd "/dist/prebuilt/foo-q4f16_0/ndarray-cache.json" Habs)
      at 2.
    apply probe_simple_fs_file; [exact Habs|].
    rewrite (absolute_abs cwd _ Habs). simpl; auto. }
  unfold f_search_model_path. rewrite Hcfg, Hmp, Hdir, Hlib, Hpar.
  rewrite !append_assoc. reflexivity.
Qed.

Lemma search_finds_prebuilt_witness :
  f_search_model_path (fs_prebuilt_in "/home/user/mlc-llm") OtherOS "dist" "cuda"
    (GetArchSuffix AArch64) ["foo-q4f16_0"]
  = mkRun
      ("Use config /home/user/mlc-llm/dist/prebuilt/foo-q4f16_0/mlc-chat-config.json"
       ++ endl
       ++ "Use lib /home/user/mlc-llm/dist/prebuilt/lib/foo-q4f16_0-cuda.so" ++ endl)
      ""
      (Ret ("/home/user/mlc-llm/dist/prebuilt/lib/foo-q4f16_0-cuda.so",
            "/home/user/mlc-llm/dist/prebuilt/foo-q4f16_0")).
Proof.
  apply (search_finds_prebuilt "/home/user/mlc-llm" AArch64).
  - reflexivity.
  - vm_compute. reflexivity.
Defined.

(** ** The identifier of [/reload] *)

Lemma skip_ws_app (ws s : string) : all_space ws = true -> skip_ws (ws ++ s) = skip_ws s.
Proof.
  unfold all_space. induction ws as [|c ws IH]; simpl; [reflexivity|].
  destruct (is_space c); [exact IH | discriminate].
Qed.

Lemma skip_ws_token (tok rest : string) :
  no_space tok = true -> tok <> "" -> skip_ws (tok ++ rest) = tok ++ rest.
Proof.
  unfold no_space. destruct tok as [|c tok]; [contradiction|]. simpl.
  destruct (is_space c); [discriminate | reflexivity].
Qed.

Lemma read_token_app (tok rest : string) :
  no_space tok = true -> at_token_end rest = true ->
  read_token (tok ++ rest) = (tok, rest).
Proof.
  unfold no_space. induction tok as [|c tok IH]; simpl; intros Ht Hr.
  - destruct rest as [|r rest]; [reflexivity|]. simpl in *. rewrite Hr. reflexivity.
  - destruct (is_space c); [discriminate|]. simpl in Ht.
    rewrite (IH Ht Hr). reflexivity.
Qed.

Lemma at_token_end_space (ws s : string) :
  all_space ws = true -> ws <> "" -> at_token_end (ws ++ s) = true.
Proof.
  unfold all_space. destruct ws as [|c ws]; [contradiction|]. simpl.
  destruct (is_space c); [reflexivity | discriminate].
Qed.

Lemma no_space_app (a b : string) :
  no_space a = true -> no_space b = true -> no_space (a ++ b) = true.
Proof.
  unfold no_space. induction a as [|c a IH]; simpl; [auto|].
  destruct (is_space c); simpl; [discriminate | exact IH].
Qed.

Lemma reload_line_is_reload (tail : string) :
  classify ("/reload" ++ tail) = Reload (second_token ("/reload" ++ tail)).
Proof.
  unfold classify, second_token.
  pose proof (substr_is_prefix "/reset" ("/reload" ++ tail)) as H1.
  pose proof (substr_is_prefix "/reload" ("/reload" ++ tail)) as H2.
  cbn [String.length] in H1, H2. rewrite H1, H2.
  replace (String.prefix "/reset" ("/reload" ++ tail)) with false by reflexivity.
  replace (String.prefix "/reload" ("/reload" ++ tail)) with true
    by (symmetry; apply prefix_correct, substring_whole).
  destruct (extract ("/reload" ++ tail)) as [reload_prompt rest]. simpl.
  destruct (extract rest) as [local_id rest']. reflexivity.
Qed.

(** X15: the identifier of a [/reload] line is its second token: the
    characters glued to [/reload] belong to the first token and are
    dropped, any run of white space separates the two, and what follows the
    identifier is dropped too.  A [/reload] followed by nothing but white
    space carries no identifier. *)
Theorem reload_identifier (junk ws id rest : string) :
  no_space junk = true ->
  all_space ws = true ->
  (ws <> "" -> id <> "" -> no_space id = true -> at_token_end rest = true ->
   classify ("/reload" ++ junk ++ ws ++ id ++ rest) = Reload id)
  /\ classify ("/reload" ++ junk ++ ws) = Reload "".
Proof.
  intros Hjunk Hws.
  assert (Hfirst : forall s, at_token_end s = true ->
            extract ("/reload" ++ junk ++ s) = ("/reload" ++ junk, s)).
  { intros s Hs. unfold extract.
    rewrite <- (append_assoc "/reload" junk s).
    assert (Hn : no_space ("/reload" ++ junk) = true)
      by (apply no_space_app; [reflexivity | exact Hjunk]).
    rewrite (skip_ws_token _ s Hn) by discriminate.
    apply read_token_app; assumption. }
  split.
  - intros Hne Hid Hnid Hrest.
    rewrite reload_line_is_reload. unfold second_token.
    rewrite (Hfirst (ws ++ id ++ rest)) by (apply at_token_end_space; assumption).
    cbn [snd]. unfold extract.
    rewrite (skip_ws_app ws _ Hws), (skip_ws_token id rest Hnid Hid).
    rewrite (read_token_app id rest Hnid Hrest). reflexivity.
  - rewrite reload_line_is_reload. unfold second_token.
    assert (Hend : at_token_end ws = true).
    { unfold all_space in Hws. destruct ws as [|c ws]; [reflexivity|].
      simpl in *. destruct (is_space c); [reflexivity | discriminate]. }
    rewrite (Hfirst ws Hend). cbn [snd]. unfold extract.
    rewrite <- (append_nil_r ws), (skip_ws_app ws "" Hws). reflexivity.
Qed.

Lemma reload_identifier_witness :
  classify ("/reload" ++ "x" ++ "   " ++ "foo-q4f16_0" ++ " and more") = Reload "foo-q4f16_0"
  /\ classify ("/reload" ++ "x" ++ "   ") = Reload "".
Proof.
  split.
  - apply (proj1 (reload_identifier "x" "   " "foo-q4f16_0" " and more"
                    eq_refl eq_refl)); try discriminate; reflexivity.
  - apply (proj2 (reload_identifier "x" "   " "foo-q4f16_0" " and more"
                    eq_refl eq_refl)).
Defined.

(** ** Rounds of [Chat] *)

Lemma prefix_app_inv (p s : string) :
  String.prefix p s = true -> exists tail, s = p ++ tail.
Proof.
  revert s. induction p as [|a p IH]; intros s H.
  - exists s. reflexivity.
  - destruct s as [|b s]; [discriminate|]. cbn [String.prefix] in H.
    destruct (ascii_dec a b) as [->|]; [|discriminate].
    destruct (IH s H) as [tail ->]. exists tail. reflexivity.
Qed.

Lemma classify_exit (inp : string) :
  String.prefix "/exit" inp = true -> classify inp = Exit.
Proof.
  intros H. destruct (prefix_app_inv _ _ H) as [tail ->].
  unfold classify.
  pose proof (substr_is_prefix "/reset" ("/exit" ++ tail)) as H1.
  pose proof (substr_is_prefix "/reload" ("/exit" ++ tail)) as H2.
  pose proof (substr_is_prefix "/exit" ("/exit" ++ tail)) as H3.
  cbn [String.length] in H1, H2, H3. rewrite H1, H2, H3, H.
  reflexivity.
Qed.

Lemma Chat_loop_exit (char_is_signed : bool) (rt : Runtime)
    (f_search_model_path : list string -> Run (string * string))
    (stream_interval : Z) (fuel : nat) (l : Locals rt) (w : World rt)
    (inp : string) (rest : list string) :
  String.prefix "/exit" inp = true ->
  Chat_loop char_is_signed rt f_search_model_path stream_interval fuel l (inp :: rest) w
  = (mkWorld (chat_mod w) (cout w ++ role0 l ++ ": ") (cerr w), Ret tt).
Proof.
  intros H. cbn [Chat_loop]. unfold mbind at 1. unfold print at 1.
  unfold mbind at 1. unfold Chat_body. rewrite (classify_exit inp H). reflexivity.
Qed.

(** X16: a line that starts with [/exit], whatever follows on it, ends
    the loop of [Chat] with a normal return: only the prompt has been
    written, the chat module is not called, and the lines after it are not
    read. *)
Theorem exit_ends_session (char_is_signed : bool) (rt : Runtime)
    (f_search_model_path : list string -> Run (string * string))
    (stream_interval : Z) (fuel : nat) (l : Locals rt) (w : World rt)
    (inp : string) (rest : list string) :
  String.prefix "/exit" inp = true ->
  Chat_loop char_is_signed rt f_search_model_path stream_interval fuel l (inp :: rest) w
  = (mkWorld (chat_mod w) (cout w ++ role0 l ++ ": ") (cerr w), Ret tt).
Proof. apply Chat_loop_exit. Qed.

Lemma exit_ends_session_witness :
  Chat_loop true echo_rt sibling_search 2 10 echo_locals ["/exitnow"; "hello"] echo_loaded
  = (mkWorld (chat_mod echo_loaded) (cout echo_loaded ++ role0 echo_locals ++ ": ")
       (cerr echo_loaded), Ret tt).
Proof.
  apply (exit_ends_session true echo_rt sibling_search 2 10 echo_locals echo_loaded
           "/exitnow" ["hello"]).
  reflexivity.
Defined.

(** The generation loop, when it returns: the chat module has stopped, the
    error stream is as it was, and either no step was made or the last thing
    drawn is the final message. *)
Lemma generate_returns (char_is_signed : bool) (rt : Runtime) (stream_interval : Z)
    (fuel : nat) :
  forall (i : Z) (printed : list string) (w w' : World rt),
    generate char_is_signed rt stream_interval fuel i printed w = (w', Ret tt) ->
    rt_stopped rt (chat_mod w') = true
    /\ cerr w' = cerr w
    /\ ((w' = w /\ rt_stopped rt (chat_mod w) = true)
        \/ exists frames last,
             CountUTF8 char_is_signed (rt_get_message rt (chat_mod w')) = Ret last
             /\ cout w' = cout w ++ join (redraws printed (frames ++ [last]))).
Proof.
  induction fuel as [|fuel IH]; intros i printed w w'; cbn [generate].
  - destruct (rt_stopped rt (chat_mod w)) eqn:Hs; [|discriminate].
    intros [= <-]. rewrite Hs. auto.
  - destruct (rt_stopped rt (chat_mod w)) eqn:Hs.
    { intros [= <-]. rewrite Hs. auto. }
    unfold mbind at 1. unfold tell at 1. unfold mbind at 1. unfold ask at 1.
    cbn [chat_mod cout cerr].
    destruct ((i mod to_size_t stream_interval =? 0)%Z
              || rt_stopped rt (rt_decode rt (chat_mod w))) eqn:Hcond.
    + unfold mbind at 1. unfold ask at 1. cbn [chat_mod cout cerr].
      unfold mbind at 1. unfold lift at 1.
      destruct (CountUTF8 char_is_signed (rt_get_message rt (rt_decode rt (chat_mod w))))
        as [cur| | |] eqn:Hcur; try discriminate.
      unfold mbind at 1. unfold print at 1. cbn [chat_mod cout cerr].
      intros H. destruct (IH _ _ _ _ H) as (Hst & Herr & Hcase).
      split; [exact Hst|]. split; [exact Herr|]. right.
      destruct Hcase as [[-> _] | (frames & last & Hlast & Hout)].
      * exists [], cur. cbn [chat_mod cout app redraws join fold_right].
        rewrite append_nil_r. auto.
      * exists (cur :: frames), last. split; [exact Hlast|].
        rewrite Hout. cbn [cout app redraws join fold_right].
        rewrite !append_assoc. reflexivity.
    + apply orb_false_iff in Hcond. destruct Hcond as [_ Hns].
      intros H. destruct (IH _ _ _ _ H) as (Hst & Herr & Hcase).
      split; [exact Hst|]. split; [exact Herr|]. right.
      destruct Hcase as [[-> Hs'] | (frames & last & Hlast & Hout)].
      * cbn [chat_mod] in Hs'. rewrite Hs' in Hns. discriminate.
      * exists frames, last. split; [exact Hlast|]. exact Hout.
Qed.

Lemma classify_Prompt_inv (inp text : string) : classify inp = Prompt text -> text = inp.
Proof.
  unfold classify. intros H.
  repeat match type of H with
         | context [if ?b then _ else _] => destruct b
         | context [let (_, _) := ?e in _] => destruct e
         end; congruence.
Qed.

(** X17: when a prompt has been answered, the line shown is the final
    message.  A round on a line that is no command, if it returns, has
    written the second role name, what the redraw steps wrote and a line
    end; the chat module has stopped; and unless the chat module had stopped
    right after [encode], in which case nothing was drawn, the last redraw
    step drew the clusters of the message the chat module ends with. *)
Theorem prompt_shows_final_message (char_is_signed : bool) (rt : Runtime)
    (f_search_model_path : list string -> Run (string * string))
    (stream_interval : Z) (fuel : nat) (l : Locals rt) (w w' : World rt)
    (inp text : string) (ctl : LoopCtl rt) :
  classify inp = Prompt text ->
  Chat_body char_is_signed rt f_search_model_path stream_interval fuel l inp w
  = (w', Ret ctl) ->
  ctl = Continue l
  /\ rt_stopped rt (chat_mod w') = true
  /\ cerr w' = cerr w
  /\ ((chat_mod w' = rt_encode rt inp (chat_mod w)
       /\ cout w' = (cout w ++ role1 l ++ ": ") ++ endl)
      \/ exists frames last,
           CountUTF8 char_is_signed (rt_get_message rt (chat_mod w')) = Ret last
           /\ cout w'
              = ((cout w ++ role1 l ++ ": ") ++ join (redraws [] (frames ++ [last])))
                ++ endl).
Proof.
  intros Hc. rewrite (classify_Prompt_inv inp text Hc) in Hc.
  unfold Chat_body. rewrite Hc.
  unfold mbind at 1. unfold lift at 1.
  change (CountUTF8 char_is_signed "") with (@Ret (list string) []). cbv iota beta.
  unfold mbind at 1. unfold print at 1.
  unfold mbind at 1. unfold tell at 1. cbn [chat_mod cout cerr].
  unfold mbind at 1.
  destruct (generate char_is_signed rt stream_interval fuel 0 [] _)
    as [w1 [[]| | |]] eqn:Hg; try discriminate.
  unfold mbind at 1. unfold print at 1. unfold mret. intros [= <- <-].
  destruct (generate_returns char_is_signed rt stream_interval fuel _ _ _ _ Hg)
    as (Hst & Herr & Hcase).
  cbn [chat_mod cout cerr] in *.
  split; [reflexivity|]. split; [exact Hst|]. split; [exact Herr|].
  destruct Hcase as [[-> _] | (frames & last & Hlast & Hout)].
  - left. cbn [chat_mod cout]. auto.
  - right. exists frames, last. split; [exact Hlast|].
    rewrite Hout. reflexivity.
Qed.

Lemma prompt_shows_final_message_witness :
  Continue echo_locals = Continue echo_locals
  /\ rt_stopped echo_rt (chat_mod (echo_round_body "hello")) = true
  /\ cerr (echo_round_body "hello") = cerr echo_loaded
  /\ ((chat_mod (echo_round_body "hello") = rt_encode echo_rt "hello" (chat_mod echo_loaded)
       /\ cout (echo_round_body "hello")
          = (cout echo_loaded ++ role1 echo_locals ++ ": ") ++ endl)
      \/ exists frames last,
           CountUTF8 true (rt_get_message echo_rt (chat_mod (echo_round_body "hello")))
           = Ret last
           /\ cout (echo_round_body "hello")
              = ((cout echo_loaded ++ role1 echo_locals ++ ": ")
                 ++ join (redraws [] (frames ++ [last]))) ++ endl).
Proof.
  apply (prompt_shows_final_message true echo_rt sibling_search 2 10 echo_locals
           echo_loaded (echo_round_body "hello") "hello" "hello" (Continue echo_locals)).
  - reflexivity.
  - vm_compute. reflexivity.
Defined.

(** ** The streams of a round *)

Lemma writes_refl {rt : Runtime} (w : World rt) : writes "" w w.
Proof.
  split; [|exists ""]; symmetry; apply append_nil_r.
Qed.

Lemma writes_trans {rt : Runtime} (e1 e2 : string) (w1 w2 w3 : World rt) :
  writes e1 w1 w2 -> writes e2 w2 w3 -> writes (e1 ++ e2) w1 w3.
Proof.
  intros [H1 [o1 O1]] [H2 [o2 O2]]. split.
  - rewrite H2, H1, append_assoc. reflexivity.
  - exists (o1 ++ o2). rewrite O2, O1, append_assoc. reflexivity.
Qed.

Lemma mbind_writes_nothing {rt : Runtime} {A B : Type} (m : M rt A) (k : A -> M rt B)
    (w : World rt) :
  writes "" w (fst (m w)) ->
  (forall a w1, writes "" w1 (fst (k a w1))) ->
  writes "" w (fst (mbind m k w)).
Proof.
  intros Hm Hk. unfold mbind. destruct (m w) as [w1 [a| | |]]; simpl in *;
    try exact Hm.
  apply (writes_trans "" "" w w1 _ Hm (Hk a w1)).
Qed.

Lemma print_writes {rt : Runtime} (s : string) (w : World rt) :
  writes "" w (fst (print s w)).
Proof. split; [symmetry; apply append_nil_r | exists s; reflexivity]. Qed.

Lemma tell_writes {rt : Runtime} (f : ChatState rt -> ChatState rt) (w : World rt) :
  writes "" w (fst (tell f w)).
Proof. split; [|exists ""]; symmetry; apply append_nil_r. Qed.

Lemma try_tell_writes {rt : Runtime} (f : ChatState rt -> Outcome (ChatState rt))
    (w : World rt) :
  writes "" w (fst (try_tell f w)).
Proof.
  unfold try_tell. destruct (f (chat_mod w)); simpl;
    first [apply writes_refl | split; [|exists ""]; symmetry; apply append_nil_r].
Qed.

Lemma generate_writes (char_is_signed : bool) (rt : Runtime) (stream_interval : Z)
    (fuel : nat) :
  forall (i : Z) (printed : list string) (w : World rt),
    writes "" w (fst (generate char_is_signed rt stream_interval fuel i printed w)).
Proof.
  induction fuel as [|fuel IH]; intros i printed w; cbn [generate].
  - destruct (rt_stopped rt (chat_mod w)); apply writes_refl.
  - destruct (rt_stopped rt (chat_mod w)); [apply writes_refl|].
    apply mbind_writes_nothing; [apply tell_writes|]. intros _ w1.
    apply mbind_writes_nothing; [apply writes_refl|]. intros stop w2.
    destruct ((i mod to_size_t stream_interval =? 0)%Z || stop); [|apply IH].
    apply mbind_writes_nothing; [apply writes_refl|]. intros cur_msg w3.
    apply mbind_writes_nothing; [apply writes_refl|]. intros cur w4.
    apply mbind_writes_nothing; [apply print_writes|]. intros _ w5. apply IH.
Qed.

(** X18: however a round of [Chat] ends, what was written to [std::cout]
    before it is still the beginning of what is written after it, and the
    only thing it writes to [std::cerr] is what the search of a [/reload]
    with an identifier writes there. *)
Theorem round_streams (char_is_signed : bool) (rt : Runtime)
    (f_search_model_path : list string -> Run (string * string))
    (stream_interval : Z) (fuel : nat) (l : Locals rt) (w : World rt) (inp : string) :
  cerr (fst (Chat_body char_is_signed rt f_search_model_path stream_interval fuel l inp w))
  = cerr w ++ match classify inp with
              | Reload id => if id =? "" then "" else run_err (f_search_model_path [id])
              | _ => ""
              end
  /\ exists out,
       cout (fst (Chat_body char_is_signed rt f_search_model_path stream_interval fuel
                    l inp w))
       = cout w ++ out.
Proof.
  change (writes match classify inp with
                 | Reload id => if id =? "" then "" else run_err (f_search_model_path [id])
                 | _ => ""
                 end w
            (fst (Chat_body char_is_signed rt f_search_model_path stream_interval fuel
                    l inp w))).
  unfold Chat_body. destruct (classify inp) as [|id| | | |text].
  - apply mbind_writes_nothing; [apply tell_writes|]. intros _ w1.
    apply mbind_writes_nothing; [apply print_writes|]. intros _ w2. apply writes_refl.
  - unfold Chat_reload. destruct (id =? "").
    + apply mbind_writes_nothing; [|intros a w1; apply writes_refl].
      apply mbind_writes_nothing; [apply try_tell_writes|]. intros _ w1.
      apply mbind_writes_nothing; [apply print_writes|]. intros _ w2. apply writes_refl.
    + unfold mbind at 1. unfold mbind at 1. unfold lift_run at 1.
      assert (H0 : writes (run_err (f_search_model_path [id])) w
                     (mkWorld (chat_mod w) (cout w ++ run_out (f_search_model_path [id]))
                        (cerr w ++ run_err (f_search_model_path [id]))))
        by (split; [reflexivity | eexists; reflexivity]).
      destruct (run_res (f_search_model_path [id])) as [[lib_path path]| | |];
        try exact H0.
      match goal with
      | |- writes _ _ (fst (let (w', o) := ?m ?w0 in _)) =>
          assert (H1 : writes "" w0 (fst (m w0)));
          [|destruct (m w0) as [w1 [l1| | |]]; cbn [fst] in *;
            rewrite <- (append_nil_r (run_err (f_search_model_path [id])));
            exact (writes_trans _ _ _ _ _ H0 H1)]
      end.
      apply mbind_writes_nothing; [apply writes_refl|]. intros exe w1.
      apply mbind_writes_nothing; [apply try_tell_writes|]. intros _ w2.
      apply mbind_writes_nothing; [apply writes_refl|]. intros r0 w3.
      apply mbind_writes_nothing; [apply writes_refl|]. intros r1 w4.
      apply mbind_writes_nothing; [apply print_writes|]. intros _ w5. apply writes_refl.
  - apply writes_refl.
  - apply mbind_writes_nothing; [apply writes_refl|]. intros stats w1.
    apply mbind_writes_nothing; [apply print_writes|]. intros _ w2. apply writes_refl.
  - apply mbind_writes_nothing; [apply print_writes|]. intros _ w2. apply writes_refl.
  - apply mbind_writes_nothing; [apply writes_refl|]. intros printed w1.
    apply mbind_writes_nothing; [apply print_writes|]. intros _ w2.
    apply mbind_writes_nothing; [apply tell_writes|]. intros _ w3.
    apply mbind_writes_nothing; [apply generate_writes|]. intros _ w4.
    apply mbind_writes_nothing; [apply print_writes|]. intros _ w5. apply writes_refl.
Qed.

(** ** [main] *)

Section MainFacts.
Variable char_is_signed : bool.
Variable probe : DLDevice -> bool.
Variable fs : FileSystem.
Variable os : OS.
Variable arch : Arch.
Variable rt : Runtime.
Variable host : Host rt.

(** X19: a device name that is neither [auto] nor one of cuda, metal,
    vulkan, opencl ends [main] by the exception of [LOG(FATAL)], thrown
    outside the [try] block: no handler catches it, nothing has been
    written, and no file is looked for, whatever the other arguments. *)
Theorem main_rejects_device (args : Args) (cin : list string) (fuel : nat) :
  arg_device_name args <> "auto" ->
  ~ In (arg_device_name args) ["cuda"; "metal"; "vulkan"; "opencl"] ->
  main char_is_signed probe fs os arch rt host args cin fuel
  = mkMainRun "" "" None
      (Terminated (FatalLog ("Do not recognize device name " ++ arg_device_name args))).
Proof.
  intros Hauto Hin. unfold main.
  rewrite (DetectDeviceName_not_auto probe _ Hauto), (GetDevice_unknown _ _ Hin).
  reflexivity.
Qed.


(** X21: with [--evaluate], [main] does not read its input: it ends in
    the same way, with the same streams, whatever the input holds. *)
Theorem main_evaluate_ignores_input (args : Args) (cin : list string) (fuel : nat) :
  arg_evaluate args = true ->
  main char_is_signed probe fs os arch rt host args cin fuel
  = main char_is_signed probe fs os arch rt host args [] 0.
Proof.
  intros He. unfold main. rewrite He. reflexivity.
Qed.

(** X22: a session ends with exit code 0 when [main] has found the
    device, the library and the model path, has loaded the library and
    initialised the chat module, every round has gone on to the next, and
    then the input is at its end or a line starts with [/exit]: the last
    thing written is the prompt, and the lines after [/exit] are not read. *)
Theorem main_session_exit_0 (args : Args) (fuel : nat)
    (device_name lib_path path : string) (device : DLDevice) (lib : Module_ rt)
    (m : ChatState rt) (l1 : Locals rt) (w1 : World rt) (between rest : list string) :
  DetectDeviceName probe (arg_device_name args) = Ret device_name ->
  GetDevice device_name (arg_device_id args) = Ret device ->
  run_res (f_search_model_path fs os (arg_artifact_path args) device_name
             (GetArchSuffix arch)
             (main_local_id_candidates (arg_local_id args) (arg_model args)
                (arg_quantization args)))
  = Ret (lib_path, path) ->
  LoadFromFile rt lib_path = Ret lib ->
  arg_evaluate args = false ->
  rt_reload rt lib path (CreateChatModule host device) = Ret m ->
  session_run char_is_signed rt
    (f_search_model_path fs os (arg_artifact_path args) device_name (GetArchSuffix arch))
    2 fuel
    (mkLocals lib path (rt_get_role0 rt m) (rt_get_role1 rt m))
    (mkWorld m
       (run_out (f_search_model_path fs os (arg_artifact_path args) device_name
                   (GetArchSuffix arch)
                   (main_local_id_candidates (arg_local_id args) (arg_model args)
                      (arg_quantization args)))
        ++ banner)
       (run_err (f_search_model_path fs os (arg_artifact_path args) device_name
                   (GetArchSuffix arch)
                   (main_local_id_candidates (arg_local_id args) (arg_model args)
                      (arg_quantization args)))))
    between l1 w1 ->
  rest = [] \/ String.prefix "/exit" (hd "" rest) = true ->
  main char_is_signed probe fs os arch rt host args (between ++ rest) fuel
  = mkMainRun (cout w1 ++ role0 l1 ++ ": ") (cerr w1) (Some (chat_mod w1)) (Exited 0).
Proof.
  intros Hd Hg Hs Hl He Hr Hrun Hrest. unfold main.
  rewrite Hd, Hg. cbv zeta. rewrite Hs, Hl, He.
  unfold Chat. unfold mbind at 1. unfold try_tell at 1. cbn [chat_mod cout cerr].
  rewrite Hr. unfold mbind at 1. unfold ask at 1. unfold mbind at 1. unfold ask at 1.
  cbn [chat_mod cout cerr].
  fold banner.
  rewrite (Chat_loop_session_run _ _ _ _ _ _ _ _ _ _ rest Hrun).
  destruct Hrest as [-> | Hex].
  - reflexivity.
  - destruct rest as [|inp rest']; [discriminate|]. cbn [hd] in Hex.
    rewrite (Chat_loop_exit _ _ _ _ _ _ _ _ _ Hex). reflexivity.
Qed.
End MainFacts.

Lemma main_rejects_device_witness :
  main true cuda_only fs_lib_sibling OtherOS X86_64 echo_rt echo_host args_cpu ["hello"] 10
  = mkMainRun "" "" None
      (Terminated (FatalLog ("Do not recognize device name " ++ arg_device_name args_cpu))).
Proof.
  apply (main_rejects_device true cuda_only fs_lib_sibling OtherOS X86_64 echo_rt echo_host
           args_cpu ["hello"] 10).
  - discriminate.
  - simpl. intros [H|[H|[H|[H|[]]]]]; discriminate H.
Defined.


Lemma main_evaluate_ignores_input_witness :
  main true cuda_only fs_lib_sibling OtherOS X86_64 echo_rt echo_host (args_foo true)
    ["hello"; "/exit"] 10
  = main true cuda_only fs_lib_sibling OtherOS X86_64 echo_rt echo_host (args_foo true) [] 0.
Proof.
  apply (main_evaluate_ignores_input true cuda_only fs_lib_sibling OtherOS X86_64 echo_rt
           echo_host (args_foo true) ["hello"; "/exit"] 10).
  reflexivity.
Defined.

Lemma main_session_exit_0_witness :
  main true cuda_only fs_lib_sibling OtherOS X86_64 echo_rt echo_host (args_foo false)
    (["hello"; "/stats"] ++ ["/exit"; "not read"]) 10
  = mkMainRun (cout main_echo_later ++ role0 main_echo_locals ++ ": ")
      (cerr main_echo_later) (Some (chat_mod main_echo_later)) (Exited 0).
Proof.
  apply (main_session_exit_0 true cuda_only fs_lib_sibling OtherOS X86_64 echo_rt echo_host
           (args_foo false) 10 "cuda"
           "/home/user/mlc-llm/dist/foo-q4f16_0/foo-q4f16_0-cuda.so"
           "/home/user/mlc-llm/dist/foo-q4f16_0/params"
           (mkDLDevice kDLCUDA 0)
           "/home/user/mlc-llm/dist/foo-q4f16_0/foo-q4f16_0-cuda.so"
           (mkEcho "/home/user/mlc-llm/dist/foo-q4f16_0/foo-q4f16_0-cuda.so"
              "/home/user/mlc-llm/dist/foo-q4f16_0/params" 1 "" [])
           main_echo_locals main_echo_later ["hello"; "/stats"] ["/exit"; "not read"]).
  - reflexivity.
  - reflexivity.
  - vm_compute. reflexivity.
  - reflexivity.
  - reflexivity.
  - reflexivity.
  - apply (run_round true echo_rt _ 2 10 main_echo_locals main_echo_locals main_echo_locals
             main_echo_start (echo_round main_echo_locals "hello" main_echo_start)
             main_echo_later "hello" ["/stats"]).
    + vm_compute. reflexivity.
    + apply (run_round true echo_rt _ 2 10 main_echo_locals main_echo_locals
               main_echo_locals (echo_round main_echo_locals "hello" main_echo_start)
               main_echo_later main_echo_later "/stats" []).
      * vm_compute. reflexivity.
      * apply run_done.
  - right. reflexivity.
Defined.

(** The session of the example, read off: the banner, the answer, the
    statistics and the last prompt. *)
Example main_echo_session :
  main_cout (main true cuda_only fs_lib_sibling OtherOS X86_64 echo_rt echo_host
               (args_foo false) ["hello"; "/stats"; "/exit"; "not read"] 10)
  = "Use config /home/user/mlc-llm/dist/foo-q4f16_0/params/mlc-chat-config.json" ++ endl
    ++ "Use lib /home/user/mlc-llm/dist/foo-q4f16_0/foo-q4f16_0-cuda.so" ++ endl
    ++ banner
    ++ "USER: ASSISTANT: You said: hello" ++ endl
    ++ "USER: encode: 0.0 tok/s, decode: 0.0 tok/s" ++ endl
    ++ "USER: ".
Proof. vm_compute. reflexivity. Qed.

(** A message cut inside a character: the first redraw step is fatal, and
    [main] ends with exit code 1 after the handler has written the text of
    the error. *)
Example main_cut_message :
  main true cuda_only fs_lib_sibling OtherOS X86_64 cut_rt
    (@mkHost cut_rt (fun _ => mkEcho "" "" 0 "" []) (fun st => st) true (fun msg => msg))
    (args_foo false) ["hello"; "/exit"] 10
  = @mkMainRun cut_rt
      ("Use config /home/user/mlc-llm/dist/foo-q4f16_0/params/mlc-chat-config.json" ++ endl
       ++ "Use lib /home/user/mlc-llm/dist/foo-q4f16_0/foo-q4f16_0-cuda.so" ++ endl
       ++ banner ++ "USER: ASSISTANT: ")
      ("Invalid UTF8 string" ++ endl)
      (Some (mkEcho "/home/user/mlc-llm/dist/foo-q4f16_0/foo-q4f16_0-cuda.so"
               "/home/user/mlc-llm/dist/foo-q4f16_0/params" 1
               (String (ascii_of_nat 195) EmptyString)
               [String (ascii_of_nat 169) EmptyString]))
      (Exited 1).
Proof. vm_compute. reflexivity. Qed.

(** ** A message that cannot be drawn *)



(** ** The library directory and the variables of [Chat] *)

(** X24: the library directory as a function of the model path.  For a
    model path of seven characters or more it is the parent directory when
    the last component is [params], and [lib] under the parent directory
    otherwise; for a shorter model path the comparison throws
    [std::out_of_range] and there is no library directory. *)
Theorem lib_dir_by_last_component (model_path : string) :
  (7 <= String.length model_path ->
   (Z.of_nat (String.length model_path) < size_t_max)%Z ->
   lib_dir_path model_path
   = Ret (if filename model_path =? "params" then parent_path model_path
          else parent_path model_path ++ "/lib"))
  /\ (String.length model_path < 7 -> lib_dir_path model_path = Raise OutOfRange).
Proof.
  split; [apply lib_dir_path_long|].
  intros Hlen. unfold lib_dir_path, compare_params, to_size_t, size_t_max.
  replace ((Z.of_nat (String.length model_path) - 7) mod 2 ^ 64)%Z
    with (Z.of_nat (String.length model_path) - 7 + 2 ^ 64)%Z.
  - destruct (Z.gtb_spec (Z.of_nat (String.length model_path) - 7 + 2 ^ 64)
                (Z.of_nat (String.length model_path))); [reflexivity | lia].
  - symmetry. rewrite <- (Z.mod_add _ 1 (2 ^ 64)) by lia.
    rewrite Z.mul_1_l. apply Z.mod_small. lia.
Qed.

Lemma lib_dir_by_last_component_witness :
  lib_dir_path "/srv/models/foo/params" = Ret "/srv/models/foo"
  /\ lib_dir_path "/srv/prebuilt/foo" = Ret "/srv/prebuilt/lib"
  /\ lib_dir_path "/m" = Raise OutOfRange.
Proof.
  split; [|split].
  - apply (proj1 (lib_dir_by_last_component "/srv/models/foo/params"));
      [simpl; lia | vm_compute; reflexivity].
  - apply (proj1 (lib_dir_by_last_component "/srv/prebuilt/foo"));
      [simpl; lia | vm_compute; reflexivity].
  - apply (proj2 (lib_dir_by_last_component "/m")). simpl. lia.
Defined.

(** X25: a round that goes on changes the library, the model path and the
    role names that [Chat] holds only when its line is a [/reload] with an
    identifier; over any number of other rounds they stay as they are. *)
Theorem rounds_keep_model (char_is_signed : bool) (rt : Runtime)
    (f_search_model_path : list string -> Run (string * string))
    (stream_interval : Z) (fuel : nat) (l l' : Locals rt) (w w' : World rt)
    (cin : list string) :
  session_run char_is_signed rt f_search_model_path stream_interval fuel l w cin l' w' ->
  forallb keeps_model cin = true ->
  l' = l.
Proof. apply session_run_keeps_model. Qed.

Lemma rounds_keep_model_witness : echo_locals_foo = echo_locals_foo.
Proof.
  apply (rounds_keep_model true echo_rt sibling_search 2 10 echo_locals_foo echo_locals_foo
           echo_loaded_foo echo_later_foo ["/stats"; "hi"]).
  - apply (run_round true echo_rt sibling_search 2 10 echo_locals_foo echo_locals_foo
             echo_locals_foo echo_loaded_foo
             (echo_round echo_locals_foo "/stats" echo_loaded_foo) echo_later_foo
             "/stats" ["hi"]).
    + vm_compute. reflexivity.
    + apply (run_round true echo_rt sibling_search 2 10 echo_locals_foo echo_locals_foo
               echo_locals_foo
               (echo_round echo_locals_foo "/stats" echo_loaded_foo)
               echo_later_foo echo_later_foo "hi" []).
      * vm_compute. reflexivity.
      * apply run_done.
  - reflexivity.
Defined.
